(** * The ear dataset adapter and the colour splash of samples/ears/ears.py

    A shallow embedding of [EarDataset.load_ear], [EarDataset.load_mask],
    [EarDataset.image_reference] and [color_splash], together with the
    library functions they call (os.path, numpy, skimage), and the
    properties of them that the specification states; then of [train],
    [detect] and the command-line block of the script, with further
    properties read off the code.

    Conventions.
    - A Python exception is a value of [exn]; a call that may raise returns
      a [result].
    - A method of the dataset object is a function of the object's state
      (the [Dataset] record) that returns its outcome and the state it
      leaves behind; an exception keeps the mutations made before it.
    - uint8 and integer arrays hold [Z]; float64 arrays hold exact
      rationals [Q]: the rounding error of the float64 operations, of the
      order of 1e-13 on the values met here, is not modelled.
    - The paths are those of a POSIX system.
    - An n-dimensional array is its shape and its elements in row-major
      (C) order. *)

From Stdlib Require Import ZArith QArith Qround List String Ascii Bool Lia Lqa.
From Stdlib Require Import Permutation.
Import ListNotations.

Set Implicit Arguments.
Close Scope Q_scope.

(** ** Exceptions and results *)

Inductive exn : Type :=
| AssertionError   (* a failed [assert] *)
| ValueError       (* numpy: nothing to stack, shapes that do not agree *)
| IndexError       (* sequence index out of range *)
| KeyError         (* missing dictionary key *)
| IOError.         (* skimage.io.imread could not read or decode the file *)

Inductive result (A : Type) : Type :=
| Ok (a : A)
| Raise (e : exn).

Arguments Ok {A} a.
Arguments Raise {A} e.

Class Monad (m : Type -> Type) : Type := {
  ret : forall {A}, A -> m A;
  bind : forall {A B}, m A -> (A -> m B) -> m B
}.

Declare Scope monad_scope.
Delimit Scope monad_scope with monad.
Notation "x <- c ;; k" := (bind c (fun x => k))
  (at level 61, c at next level, right associativity) : monad_scope.
Notation "c ;; k" := (bind c (fun _ => k))
  (at level 61, right associativity) : monad_scope.
Open Scope monad_scope.

#[export] Instance Monad_result : Monad result := {
  ret := fun A a => Ok a;
  bind := fun A B c k => match c with Ok a => k a | Raise e => Raise e end
}.

Definition of_option {A} (e : exn) (o : option A) : result A :=
  match o with Some a => Ok a | None => Raise e end.

(** ** os.path on a POSIX system *)

Module Posixpath.

Open Scope string_scope.

(** [p.rfind(c)]: the last index of [c] in [p], or -1. *)
Fixpoint rfind_from (c : ascii) (p : string) (i acc : Z) : Z :=
  match p with
  | EmptyString => acc
  | String a p' => rfind_from c p' (i + 1) (if Ascii.eqb a c then i else acc)
  end.

Definition rfind (c : ascii) (p : string) : Z := rfind_from c p 0 (-1).

(** [p[:i]] and [p[i:]] for [0 <= i]. *)
Definition slice_to (p : string) (i : Z) : string :=
  substring 0 (Z.to_nat i) p.

Definition slice_from (p : string) (i : Z) : string :=
  substring (Z.to_nat i) (String.length p - Z.to_nat i) p.

Definition startswith (c : ascii) (p : string) : bool :=
  match p with
  | String a _ => Ascii.eqb a c
  | EmptyString => false
  end.

Fixpoint endswith (c : ascii) (p : string) : bool :=
  match p with
  | EmptyString => false
  | String a EmptyString => Ascii.eqb a c
  | String _ p' => endswith c p'
  end.

(** [os.path.join(a, b)] *)
Definition join (a b : string) : string :=
  if startswith "/" b then b
  else if (String.eqb a "") || endswith "/" a then a ++ b
  else a ++ "/" ++ b.

(** The loop of [genericpath._splitext] that skips the leading dots of the
    file name: [n] positions are left before [dotIndex]; it answers whether
    a character other than a dot was met. *)
Fixpoint skip_dots (p : string) (filenameIndex n : nat) : bool :=
  match n with
  | O => false
  | S n' =>
      match String.get filenameIndex p with
      | Some a =>
          if negb (Ascii.eqb a ".") then true
          else skip_dots p (S filenameIndex) n'
      | None => true
      end
  end.

(** [os.path.splitext(p)] *)
Definition splitext (p : string) : string * string :=
  let sepIndex := rfind "/" p in
  let dotIndex := rfind "." p in
  if (sepIndex <? dotIndex)%Z
     && skip_dots p (Z.to_nat (sepIndex + 1))
                  (Z.to_nat (dotIndex - (sepIndex + 1)))
  then (slice_to p dotIndex, slice_from p dotIndex)
  else (p, "").

(** [head.rstrip('/')] *)
Fixpoint rstrip_slash (p : string) : string :=
  match p with
  | EmptyString => EmptyString
  | String a p' =>
      match rstrip_slash p' with
      | EmptyString => if Ascii.eqb a "/" then EmptyString else String a EmptyString
      | q => String a q
      end
  end.

(** [os.path.dirname(p)] *)
Definition dirname (p : string) : string :=
  let i := (rfind "/" p + 1)%Z in
  let head := slice_to p i in
  match rstrip_slash head with
  | EmptyString => head         (* head is empty or made of slashes only *)
  | stripped => stripped
  end.

End Posixpath.

(** Python's [l[i]] for a list and an integer index: negative indices count
    from the end. *)
Definition py_index {A} (l : list A) (i : Z) : result A :=
  let n := Z.of_nat (List.length l) in
  if ((0 <=? i) && (i <? n))%Z then of_option IndexError (nth_error l (Z.to_nat i))
  else if ((- n <=? i) && (i <? 0))%Z
       then of_option IndexError (nth_error l (Z.to_nat (n + i)))
       else Raise IndexError.

(** ** numpy arrays *)

Module Np.

Record ndarray (A : Type) : Type := Ndarray {
  shape : list nat;     (* arr.shape *)
  data : list A         (* the elements, last axis varying fastest *)
}.

(** The number of elements of an array of shape [s]. *)
Definition size (s : list nat) : nat := fold_right Nat.mul 1 s.

(** [arr.shape[-1]] *)
Definition shape_last {A} (a : ndarray A) : result nat :=
  match rev (shape a) with
  | n :: _ => Ok n
  | [] => Raise IndexError
  end.

(** [arr.shape[:-1]] *)
Definition shape_init {A} (a : ndarray A) : list nat := removelast (shape a).

Fixpoint shape_eqb (s t : list nat) : bool :=
  match s, t with
  | [], [] => true
  | m :: s', n :: t' => (m =? n) && shape_eqb s' t'
  | _, _ => false
  end.

(** [d[i*n : i*n + n]]: the elements along the last axis (of length [n]) at
    the [i]-th position of the leading axes. *)
Definition lane {A} (n i : nat) (d : list A) : list A :=
  firstn n (skipn (i * n) d).

(** The elements that the arrays hold at flat position [p], in the order
    of the arrays. *)
Definition column {A} (p : nat) (arrays : list (ndarray A)) : list A :=
  flat_map (fun b => match nth_error (data b) p with
                     | Some x => [x]
                     | None => []
                     end) arrays.

(** [np.stack(arrays, axis=-1)]: raises ValueError for an empty list
    ("need at least one array to stack") and for arrays of different shapes
    ("all input arrays must have the same shape"). *)
Definition stack {A} (arrays : list (ndarray A)) : result (ndarray A) :=
  match arrays with
  | [] => Raise ValueError
  | a :: _ =>
      if forallb (fun b => shape_eqb (shape b) (shape a)) arrays
      then Ok (Ndarray (shape a ++ [List.length arrays])
                       (flat_map (fun p => column p arrays)
                                 (seq 0 (size (shape a)))))
      else Raise ValueError
  end.

(** [np.ones([n], dtype=np.int32)] *)
Definition ones (n : nat) : ndarray Z := Ndarray [n] (repeat 1%Z n).

(** [arr.astype(np.bool)]: non-zero is True ([np.bool] is the builtin
    [bool], as in the numpy versions that have this name). *)
Definition astype_bool (a : ndarray Z) : ndarray bool :=
  Ndarray (shape a) (map (fun v => negb (v =? 0)%Z) (data a)).

(** A uint8 array promoted to float64. *)
Definition astype_float (a : ndarray Z) : ndarray Q :=
  Ndarray (shape a) (map inject_Z (data a)).

(** The integer part of a float, rounding toward zero. *)
Definition truncate (q : Q) : Z := Z.quot (Qnum q) (Zpos (Qden q)).

(** [arr.astype(np.uint8)] of a float64 array: the fraction is dropped and
    the integer kept modulo 256. *)
Definition astype_uint8 (a : ndarray Q) : ndarray Z :=
  Ndarray (shape a) (map (fun q => (truncate q mod 256)%Z) (data a)).

(** [arr * k] for a scalar [k]. *)
Definition mul_scalar (a : ndarray Q) (k : Q) : ndarray Q :=
  Ndarray (shape a) (map (fun v => v * k)%Q (data a)).

(** The number of True in a list of booleans. *)
Definition count_true (l : list bool) : Z :=
  fold_right (fun (b : bool) acc => ((if b then 1 else 0) + acc)%Z) 0%Z l.

(** [np.sum(a, -1, keepdims=True)] of a boolean array. *)
Definition sum_last_keepdims (a : ndarray bool) : result (ndarray Z) :=
  n <- shape_last a ;;
  Ok (Ndarray (shape_init a ++ [1])
              (map (fun i => count_true (lane n i (data a)))
                   (seq 0 (size (shape_init a))))).

(** [arr >= 1] *)
Definition ge1 (a : ndarray Z) : ndarray bool :=
  Ndarray (shape a) (map (fun s => (1 <=? s)%Z) (data a)).

(** [np.where(cond, x, y)] for the call of [color_splash]: [x] and [y] of
    one shape [s ++ [c]] and [cond] of shape [s ++ [1]], which numpy
    broadcasts along the last axis. A [cond] whose leading axes differ from
    those of [x] is outside the documented input of [color_splash]; numpy
    either raises ValueError or broadcasts axes of length 1, the model
    answers ValueError. *)
Definition where_ (cond : ndarray bool) (x y : ndarray Q) : result (ndarray Q) :=
  c <- shape_last x ;;
  k <- shape_last cond ;;
  if shape_eqb (shape x) (shape y)
     && shape_eqb (shape_init cond) (shape_init x)
     && (k =? 1)
  then Ok (Ndarray (shape x)
             (map (fun p => if nth (p / c) (data cond) false
                            then nth p (data x) 0%Q
                            else nth p (data y) 0%Q)
                  (seq 0 (size (shape x)))))
  else Raise ValueError.

End Np.

Import Np.

(** ** skimage.color *)

Module Skimage.

(** [img_as_float] of a uint8 value: the range 0..255 is scaled to 0..1. *)
Definition img_as_float (v : Z) : Q := inject_Z v / 255.

(** The luminance of skimage's [rgb2gray]:
    Y = 0.2125 R + 0.7154 G + 0.0721 B. *)
Definition luminance (r g b : Q) : Q := 0.2125 * r + 0.7154 * g + 0.0721 * b.

(** [skimage.color.rgb2gray(rgb)] for a uint8 image of shape [s ++ [3]]:
    the result has shape [s] and values in 0..1. Other numbers of channels
    are outside the documented input of [color_splash]; the model answers
    ValueError. (The default 0 is for a lane cut short, which an array
    that holds as many elements as its shape says does not have.) *)
Definition rgb2gray (rgb : ndarray Z) : result (ndarray Q) :=
  c <- shape_last rgb ;;
  if c =? 3
  then Ok (Ndarray (shape_init rgb)
             (map (fun i => match lane 3 i (data rgb) with
                            | [r; g; b] => luminance (img_as_float r) (img_as_float g) (img_as_float b)
                            | _ => 0%Q
                            end)
                  (seq 0 (size (shape_init rgb)))))
  else Raise ValueError.

(** [skimage.color.gray2rgb(image)]: each value is repeated on three
    channels. *)
Definition gray2rgb (image : ndarray Q) : ndarray Q :=
  Ndarray (shape image ++ [3]) (flat_map (fun g => [g; g; g]) (data image)).

End Skimage.

(** ** The dataset object *)

Open Scope string_scope.

(** An entry of [self.class_info]. *)
Record ClassInfo : Type := {
  ci_source : string;
  ci_id : Z;
  ci_name : string
}.

(** An entry of [self.image_info]: the dictionary that [add_image] builds.
    The keys "id", "source" and "path" are always there; "width", "height"
    and "mask" are keyword arguments of the caller and may be missing. *)
Record ImageInfo : Type := {
  info_id : string;
  info_source : string;
  info_path : string;
  info_width : option nat;
  info_height : option nat;
  info_mask : option string
}.

(** The state of a dataset object. *)
Record Dataset : Type := {
  class_info : list ClassInfo;
  image_info : list ImageInfo
}.

(** A method: from the state of [self] to an outcome and the state left. *)
Definition M (A : Type) : Type := Dataset -> result A * Dataset.

#[export] Instance Monad_M : Monad M := {
  ret := fun A a s => (Ok a, s);
  bind := fun A B c k s =>
            match c s with
            | (Ok a, s') => k a s'
            | (Raise e, s') => (Raise e, s')
            end
}.

(** A computation that does not touch [self]. *)
Definition lift {A} (r : result A) : M A := fun s => (r, s).

(** [assert b] *)
Definition assert_ (b : bool) : M unit :=
  lift (if b then Ok tt else Raise AssertionError).

(** Reading [self.image_info]. *)
Definition get_image_info : M (list ImageInfo) := fun s => (Ok (image_info s), s).

(** [for x in l: body(x)] *)
Fixpoint for_each {A} (l : list A) (body : A -> M unit) : M unit :=
  match l with
  | [] => ret tt
  | x :: l' => body x ;; for_each l' body
  end.

(** [a, b = l] *)
Definition unpack2 {A} (l : list A) : result (A * A) :=
  match l with
  | [a; b] => Ok (a, b)
  | _ => Raise ValueError
  end.

Module Utils.

(** [utils.Dataset()]: the class list starts with the background class. *)
Definition new_dataset : Dataset :=
  {| class_info := [ {| ci_source := ""; ci_id := 0; ci_name := "BG" |} ];
     image_info := [] |}.

Fixpoint contains (c : ascii) (s : string) : bool :=
  match s with
  | EmptyString => false
  | String a s' => Ascii.eqb a c || contains c s'
  end.

(** Modelled from the spec: [utils.Dataset.add_class] (mrcnn/utils.py) is
    not under src/. The framework keeps a class list next to the image
    records, in this single-class domain the background and the one
    foreground class of id 1: [add_class] registers (source, id, name)
    unless the pair (source, id) is registered already; a source name has
    no dot. It does not touch the image records. *)
Definition add_class (source : string) (class_id : Z) (class_name : string) : M unit :=
  assert_ (negb (contains "." source)) ;;
  fun s =>
    if existsb (fun info => String.eqb (ci_source info) source
                            && (ci_id info =? class_id)%Z)
               (class_info s)
    then (Ok tt, s)
    else (Ok tt,
          {| class_info := class_info s ++
                           [ {| ci_source := source; ci_id := class_id;
                                ci_name := class_name |} ];
             image_info := image_info s |}).

(** Modelled from the spec: [utils.Dataset.add_image] (mrcnn/utils.py) is
    not under src/. The catalog is an ordered sequence of image records in
    insertion order: [add_image] appends one record, made of the id, the
    source, the path and the keyword arguments of the call (here width,
    height and mask). *)
Definition add_image (source image_id path : string)
    (width height : nat) (mask : string) : M unit :=
  fun s =>
    (Ok tt,
     {| class_info := class_info s;
        image_info := image_info s ++
                      [ {| info_id := image_id; info_source := source;
                           info_path := path; info_width := Some width;
                           info_height := Some height; info_mask := Some mask |} ] |}).

End Utils.

(** ** What the code reads from outside *)

(** The file system, as the three library calls of the code see it. *)
Record FileSystem : Type := {
  (* the file names of the first triple that [os.walk(top)] yields; none
     when it yields nothing *)
  walk_files : string -> list string;
  (* [glob.glob(pattern)] *)
  glob : string -> list string;
  (* [skimage.io.imread(path)], a uint8 array, or the exception *)
  imread : string -> result (ndarray Z)
}.

(** The methods of the parent class [utils.Dataset] that [EarDataset]
    delegates to; they are not under src/ and are left open. *)
Record Parent : Type := {
  super_load_mask : Z -> M (ndarray bool * ndarray Z);
  super_image_reference : Z -> M string
}.

(** ** EarDataset *)

Section EarDataset.

Variable fs : FileSystem.
Variable parent_class : Parent.

Import Posixpath.

(** [EarDataset.load_ear(self, dataset_dir, subset)] *)
Definition load_ear (dataset_dir subset : string) : M unit :=
  Utils.add_class "ear" 1 "ear" ;;
  assert_ (existsb (String.eqb subset) ["train"; "test"]) ;;
  let annotation := subset ++ "annot" in
  let mask_dir := join dataset_dir annotation in
  let dataset_dir := join dataset_dir subset in
  let images := walk_files fs dataset_dir in
  for_each images (fun filename =>
    let image_path := join dataset_dir filename in
    let mask_path := join mask_dir filename in
    img <- lift (imread fs image_path) ;;
    hw <- lift (unpack2 (firstn 2 (shape img))) ;;
    let '(height, width) := hw in
    Utils.add_image "ear" (fst (splitext filename)) image_path
                    width height mask_path).

(** The loop of [load_mask] that reads the mask files. *)
Fixpoint read_masks (parent : string) (files : list string)
    : result (list (ndarray bool)) :=
  match files with
  | [] => Ok []
  | file :: files' =>
      let mask_path := join parent file in
      m <- imread fs mask_path ;;
      mask <- read_masks parent files' ;;
      Ok (astype_bool m :: mask)
  end.

(** [EarDataset.load_mask(self, image_id)] *)
Definition load_mask (image_id : Z) : M (ndarray bool * ndarray Z) :=
  infos <- get_image_info ;;
  image_info <- lift (py_index infos image_id) ;;
  if negb (String.eqb (info_source image_info) "ear")
  then super_load_mask parent_class image_id
  else
    info <- lift (py_index infos image_id) ;;
    info_mask <- lift (of_option KeyError (info_mask info)) ;;
    let mask_root := fst (splitext info_mask) in
    let parent := dirname info_mask in
    let files := glob fs (mask_root ++ "_?.*") in
    mask <- lift (read_masks parent files) ;;
    mask <- lift (Np.stack mask) ;;
    n <- lift (shape_last mask) ;;
    ret (mask, Np.ones n).

(** [EarDataset.image_reference(self, image_id)]: a string, or None. *)
Definition image_reference (image_id : Z) : M (option string) :=
  infos <- get_image_info ;;
  info <- lift (py_index infos image_id) ;;
  if String.eqb (info_source info) "ear"
  then ret (Some (info_path info))
  else
    _ <- super_image_reference parent_class image_id ;;
    ret None.

End EarDataset.

(** ** color_splash *)

(** [color_splash(image, mask)] for a uint8 image. *)
Definition color_splash (image : ndarray Z) (mask : ndarray bool)
    : result (ndarray Z) :=
  g <- Skimage.rgb2gray image ;;
  let gray := mul_scalar (Skimage.gray2rgb g) 255 in
  n <- shape_last mask ;;
  if (0 <? n)%nat
  then
    s <- sum_last_keepdims mask ;;
    let mask := ge1 s in
    splash <- where_ mask (astype_float image) gray ;;
    Ok (astype_uint8 splash)
  else
    Ok (astype_uint8 gray).

(** ** Small file systems to run the code on *)

Module Demo.

(** The value that a table gives to a key, [default] when it has none. *)
Fixpoint lookup {A} (default : A) (table : list (string * A)) (key : string) : A :=
  match table with
  | [] => default
  | (k, v) :: table' => if String.eqb k key then v else lookup default table' key
  end.

Definition black (h w : nat) : ndarray Z := Ndarray [h; w; 3] (repeat 0%Z (h * w * 3)).

(** /data/train holds a.png (2x2, two ear masks) and b.png (1x2, no mask
    file). *)
Definition fs : FileSystem := {|
  walk_files := lookup [] [("/data/train", ["a.png"; "b.png"])];
  glob := lookup [] [("/data/trainannot/a_?.*",
                      ["/data/trainannot/a_0.png"; "/data/trainannot/a_1.png"])];
  imread := lookup (Raise IOError)
              [("/data/train/a.png", Ok (black 2 2));
               ("/data/train/b.png", Ok (black 1 2));
               ("/data/trainannot/a_0.png", Ok (Ndarray [2; 2] [255; 255; 0; 0]%Z));
               ("/data/trainannot/a_1.png", Ok (Ndarray [2; 2] [0; 0; 0; 255]%Z))]
|}.

(** /data/train holds a 4x4 image a.png whose only mask file decodes to a
    2x2 grid. *)
Definition fs_small_mask : FileSystem := {|
  walk_files := lookup [] [("/data/train", ["a.png"])];
  glob := lookup [] [("/data/trainannot/a_?.*", ["/data/trainannot/a_0.png"])];
  imread := lookup (Raise IOError)
              [("/data/train/a.png", Ok (black 4 4));
               ("/data/trainannot/a_0.png", Ok (Ndarray [2; 2] [255; 255; 0; 0]%Z))]
|}.

(** /data/train holds two images of one stem, a.png and a.jpg. *)
Definition fs_same_stem : FileSystem := {|
  walk_files := lookup [] [("/data/train", ["a.png"; "a.jpg"])];
  glob := lookup [] [("/data/trainannot/a_?.*", ["/data/trainannot/a_0.png"])];
  imread := lookup (Raise IOError)
              [("/data/train/a.png", Ok (black 2 2));
               ("/data/train/a.jpg", Ok (black 2 2));
               ("/data/trainannot/a_0.png", Ok (Ndarray [2; 2] [255; 255; 0; 0]%Z))]
|}.

(** A parent class whose [load_mask] answers an empty stack and whose
    [image_reference] answers a link. *)
Definition parent_class : Parent := {|
  super_load_mask := fun _ => ret (Ndarray [0; 0; 0] [], Ndarray [0] []);
  super_image_reference := fun _ => ret "http://example.org/image"
|}.

(** The dataset object after [load_ear(dataset_dir, subset)] on a new
    object. *)
Definition loaded (fs : FileSystem) (dataset_dir subset : string) : Dataset :=
  snd (load_ear fs dataset_dir subset Utils.new_dataset).

(** A dataset object that holds one image of another source. *)
Definition foreign : Dataset :=
  snd (Utils.add_image "coco" "42" "/coco/42.jpg" 2 2 "/coco/42.png" Utils.new_dataset).

(** The 2x2 all-red image and the mask stack of one instance that covers
    the top row. *)
Definition red : ndarray Z :=
  Ndarray [2; 2; 3] [255; 0; 0; 255; 0; 0; 255; 0; 0; 255; 0; 0]%Z.

Definition top_row : ndarray bool := Ndarray [2; 2; 1] [true; true; false; false].

(** Mask stacks for a 2x2 image: two instances (the top-left pixel, the
    bottom-left pixel), one instance that covers the image, no instance. *)
Definition two_instances : ndarray bool :=
  Ndarray [2; 2; 2] [true; false; false; false; false; true; false; false].

Definition all_true : ndarray bool := Ndarray [2; 2; 1] [true; true; true; true].

Definition no_instance : ndarray bool := Ndarray [2; 2; 0] [].

End Demo.

(** ** Notions the properties are stated with *)

(** The record that [load_ear] builds for the file [filename] of the images
    directory, whose image decodes to [height] x [width]. *)
Definition ear_record (dataset_dir subset filename : string) (hw : nat * nat) : ImageInfo :=
  {| info_id := fst (Posixpath.splitext filename);
     info_source := "ear";
     info_path := Posixpath.join (Posixpath.join dataset_dir subset) filename;
     info_width := Some (snd hw);
     info_height := Some (fst hw);
     info_mask := Some (Posixpath.join (Posixpath.join dataset_dir (subset ++ "annot")) filename) |}.

(** An array holds as many elements as its shape says. *)
Definition well_formed {A} (a : ndarray A) : Prop :=
  List.length (data a) = size (shape a).

(** The pixelwise logical OR of the instances of a mask stack, as a stack
    of one instance. *)
Definition union_mask (mask : ndarray bool) : ndarray bool :=
  let n := last (shape mask) 0 in
  Ndarray (shape_init mask ++ [1])
          (map (fun i => existsb (fun b => b) (lane n i (data mask)))
               (seq 0 (size (shape_init mask)))).

(** [mask[..., sigma]]: the instances of a mask stack taken in the order
    [sigma]. *)
Definition permute_instances (sigma : list nat) (mask : ndarray bool) : ndarray bool :=
  let n := last (shape mask) 0 in
  Ndarray (shape_init mask ++ [List.length sigma])
          (flat_map (fun i => map (fun j => nth j (lane n i (data mask)) false) sigma)
                    (seq 0 (size (shape_init mask)))).

(** The gray level, on the scale 0..255, of a uint8 pixel. *)
Definition gray_level (r g b : Z) : Q :=
  (Skimage.luminance (Skimage.img_as_float r) (Skimage.img_as_float g)
                     (Skimage.img_as_float b) * 255)%Q.

(** The values of a uint8 array. *)
Definition uint8 (a : ndarray Z) : Prop :=
  Forall (fun v => (0 <= v <= 255)%Z) (data a).

(** [mask[..., j]]: the [j]-th instance of a mask stack. *)
Definition instance_of (j : nat) (mask : ndarray bool) : ndarray bool :=
  let n := last (shape mask) 0 in
  Ndarray (shape_init mask)
          (map (fun i => nth j (lane n i (data mask)) false)
               (seq 0 (size (shape_init mask)))).

(** ** The script: configuration, [train], [detect] and the command line *)

Open Scope string_scope.

(** The exceptions of the script: those of the library calls above, the
    TypeError of a call that is given None for a path, and the
    UnboundLocalError of a local variable read before any assignment. *)
Inductive exception : Type :=
| Lib (e : exn)
| TypeError
| UnboundLocalError.

Inductive outcome (A : Type) : Type :=
| Returns (a : A)
| Raises (e : exception).

Arguments Returns {A} a.
Arguments Raises {A} e.

(** The two configuration classes: [EarConfig] and the [InferenceConfig]
    that the script derives from it. *)
Inductive config : Type := EarConfig | InferenceConfig.

(** The class attributes that the two classes set; [InferenceConfig]
    inherits those of [EarConfig]. *)
Definition NAME (c : config) : string := "ear".
Definition IMAGES_PER_GPU (c : config) : Z := 1.
Definition NUM_CLASSES (c : config) : Z := 1 + 1.

Inductive mode : Type := training | inference.

(** What the script does to the outside, in order: the lines it prints,
    the calls into the framework and the file it writes. The framework
    (mrcnn) is not under src/; its calls are recorded with their arguments
    and taken to return. *)
Inductive event : Type :=
| Print (line : string)
| ConfigDisplay (c : config)                         (* config.display() *)
| MaskRCNN (m : mode) (c : config) (model_dir : string)
| DownloadTrainedWeights (path : string)
| FindLast                                           (* model.find_last() *)
| GetImagenetWeights                                 (* model.get_imagenet_weights() *)
| LoadWeights (path : string) (exclude : list string) (* by_name=True *)
| ModelTrain (dataset_train dataset_val : Dataset) (epochs : nat) (layers : string)
    (* model.train; learning_rate=config.LEARNING_RATE, a value of the base
       class Config, is not recorded *)
| ModelDetect (image : ndarray Z)                    (* model.detect([image], verbose=1) *)
| Imsave (file_name : string) (image : ndarray Z).   (* skimage.io.imsave *)

(** A run of script code: the events so far and how it ended. *)
Definition IO (A : Type) : Type := list event * outcome A.

#[export] Instance Monad_IO : Monad IO := {
  ret := fun A a => ([], Returns a);
  bind := fun A B c k =>
            match c with
            | (t, Returns a) => let (t', r) := k a in ((t ++ t')%list, r)
            | (t, Raises e) => (t, Raises e)
            end
}.

Definition emit (ev : event) : IO unit := ([ev], Returns tt).

Definition raises {A} (e : exception) : IO A := ([], Raises e).

(** A library call inside the script. *)
Definition lib {A} (r : result A) : IO A :=
  match r with
  | Ok a => ret a
  | Raise e => raises (Lib e)
  end.

(** A method call on a dataset object: the value and the object after. *)
Definition call {A} (m : M A) (self : Dataset) : IO (A * Dataset) :=
  match m self with
  | (Ok a, self') => ret (a, self')
  | (Raise e, _) => raises (Lib e)
  end.

(** [print(a, b, ...)]: the arguments separated by a space. *)
Definition print (args : list string) : IO unit :=
  emit (Print (String.concat " " args)).

(** [assert b] in the script. *)
Definition assert_io (b : bool) : IO unit :=
  if b then ret tt else raises (Lib AssertionError).

(** The truth value of an argument that is None or a string. *)
Definition truthy (o : option string) : bool :=
  match o with
  | Some s => negb (String.eqb s "")
  | None => false
  end.

(** [str(x)] and ["{}".format(x)] for None or a string. *)
Definition str (o : option string) : string :=
  match o with
  | Some s => s
  | None => "None"
  end.

(** [s.lower()] for a string of ASCII characters. *)
Definition lower_ascii (a : ascii) : ascii :=
  let n := nat_of_ascii a in
  if (65 <=? n)%nat && (n <=? 90)%nat then ascii_of_nat (n + 32) else a.

Fixpoint lower (s : string) : string :=
  match s with
  | EmptyString => EmptyString
  | String a s' => String (lower_ascii a) (lower s')
  end.

(** The result of [parser.parse_args()]: "command" and "--weights" are
    required, "--logs" has a default, the others are None when absent. *)
Record Args : Type := {
  command : string;
  dataset : option string;
  weights : string;
  logs : string;
  image : option string;
  video : option string
}.

(** What the script gets from the framework and from the system. *)
Record Framework : Type := {
  (* [os.path.abspath("../../")] *)
  ROOT_DIR : string;
  (* [os.path.exists(path)] *)
  path_exists : string -> bool;
  (* the value of [model.find_last()] *)
  find_last : string;
  (* the value of [model.get_imagenet_weights()] *)
  get_imagenet_weights : string;
  (* [utils.Dataset.prepare(self)] *)
  prepare : M unit;
  (* the masks of the first result of [model.detect([image], verbose=1)] *)
  detect_masks : ndarray Z -> ndarray bool;
  (* [datetime.datetime.now()] in the format %Y%m%dT%H%M%S *)
  now : string
}.

Section Script.

Variable fs : FileSystem.
Variable fw : Framework.
Variable args : Args.

Definition COCO_WEIGHTS_PATH : string :=
  Posixpath.join (ROOT_DIR fw) "mask_rcnn_balloon.h5".

Definition DEFAULT_LOGS_DIR : string := Posixpath.join (ROOT_DIR fw) "logs".

(** The three lines of [train] that make one dataset: a new object,
    [load_ear(args.dataset, subset)] and [prepare()]. With [args.dataset]
    None, [os.path.join] raises TypeError. *)
Definition prepared_dataset (subset : string) : IO Dataset :=
  match dataset args with
  | None => raises TypeError
  | Some dataset_dir =>
      r <- call (load_ear fs dataset_dir subset ;; prepare fw) Utils.new_dataset ;;
      ret (snd r)
  end.

(** [train(model)]; [args] is the global of the script. *)
Definition train : IO unit :=
  dataset_train <- prepared_dataset "train" ;;
  dataset_val <- prepared_dataset "test" ;;
  print ["Training network heads"] ;;
  emit (ModelTrain dataset_train dataset_val 30 "heads").

(** [skimage.io.imread(args.image)]; None is not a file name (TypeError
    in the skimage versions of the time). *)
Definition imread_arg (fname : option string) : IO (ndarray Z) :=
  match fname with
  | Some path => lib (imread fs path)
  | None => raises TypeError
  end.

(** [detect(model, image_path, video_path)]. The local variable
    [file_name] is assigned in the image branch only; the option tells
    whether it is. *)
Definition detect (image_path video_path : option string) : IO unit :=
  assert_io (truthy image_path || truthy video_path) ;;
  file_name <-
    (if truthy image_path
     then
       print ["Running on " ++ str (image args)] ;;
       image <- imread_arg (image args) ;;
       emit (ModelDetect image) ;;
       let r_masks := detect_masks fw image in
       splash <- lib (color_splash image r_masks) ;;
       let file_name := "splash_" ++ now fw ++ ".png" in
       emit (Imsave file_name splash) ;;
       ret (Some file_name)
     else
       print ["Video option not supported"] ;;
       ret None) ;;
  match file_name with
  | Some file_name => print ["Save to "; file_name]
  | None => raises UnboundLocalError
  end.

(** The block "Validate arguments". *)
Definition validate_arguments : IO unit :=
  if String.eqb (command args) "train"
  then assert_io (truthy (dataset args))
  else if String.eqb (command args) "evaluate"
       then assert_io (truthy (image args) || truthy (video args))
       else ret tt.

(** The block "Select weights file to load". *)
Definition select_weights : IO string :=
  if String.eqb (lower (weights args)) "coco"
  then
    let weights_path := COCO_WEIGHTS_PATH in
    (if negb (path_exists fw weights_path)
     then emit (DownloadTrainedWeights weights_path)
     else ret tt) ;;
    ret weights_path
  else if String.eqb (lower (weights args)) "last"
       then emit FindLast ;; ret (find_last fw)
       else if String.eqb (lower (weights args)) "imagenet"
            then emit GetImagenetWeights ;; ret (get_imagenet_weights fw)
            else ret (weights args).

(** The layers left out when the COCO weights are loaded. *)
Definition coco_exclude : list string :=
  ["mrcnn_class_logits"; "mrcnn_bbox_fc"; "mrcnn_bbox"; "mrcnn_mask"].

(** The block "Train or evaluate". *)
Definition train_or_evaluate : IO unit :=
  if String.eqb (command args) "train"
  then train
  else if String.eqb (command args) "evaluate"
       then detect (image args) (video args)
       else print ["'" ++ command args ++ "' is not recognized. Use 'train' or 'splash'"].

(** The block under [if __name__ == '__main__'], after the parsing of the
    command line. *)
Definition main : IO unit :=
  validate_arguments ;;
  print ["Weights: "; weights args] ;;
  print ["Dataset: "; str (dataset args)] ;;
  print ["Logs: "; logs args] ;;
  let config := if String.eqb (command args) "train" then EarConfig else InferenceConfig in
  emit (ConfigDisplay config) ;;
  emit (MaskRCNN (if String.eqb (command args) "train" then training else inference)
                 config (logs args)) ;;
  weights_path <- select_weights ;;
  print ["Loading weights "; weights_path] ;;
  (if String.eqb (lower (weights args)) "coco"
   then emit (LoadWeights weights_path coco_exclude)
   else emit (LoadWeights weights_path [])) ;;
  train_or_evaluate.

End Script.

(** ** More file systems and a framework to run the script on *)

Module Examples.

(** /data/train holds a.png, notes.txt (not an image) and b.png. *)
Definition fs_not_an_image : FileSystem := {|
  walk_files := Demo.lookup [] [("/data/train", ["a.png"; "notes.txt"; "b.png"])];
  glob := Demo.lookup [] [];
  imread := Demo.lookup (Raise IOError)
              [("/data/train/a.png", Ok (Demo.black 2 2));
               ("/data/train/b.png", Ok (Demo.black 1 2))]
|}.

(** The dataset under the relative directory data: data/train/a.png and
    its mask data/trainannot/a_0.png, which [glob] gives with its
    directory. *)
Definition fs_relative : FileSystem := {|
  walk_files := Demo.lookup [] [("data/train", ["a.png"])];
  glob := Demo.lookup [] [("data/trainannot/a_?.*", ["data/trainannot/a_0.png"])];
  imread := Demo.lookup (Raise IOError)
              [("data/train/a.png", Ok (Demo.black 2 2));
               ("data/trainannot/a_0.png", Ok (Ndarray [2; 2] [255; 255; 0; 0]%Z))]
|}.

(** /data/train holds a.png, whose second mask file is not readable. *)
Definition fs_bad_mask : FileSystem := {|
  walk_files := Demo.lookup [] [("/data/train", ["a.png"])];
  glob := Demo.lookup [] [("/data/trainannot/a_?.*",
                           ["/data/trainannot/a_0.png"; "/data/trainannot/a_1.png"])];
  imread := Demo.lookup (Raise IOError)
              [("/data/train/a.png", Ok (Demo.black 2 2));
               ("/data/trainannot/a_0.png", Ok (Ndarray [2; 2] [255; 255; 0; 0]%Z))]
|}.

(** A file system with the red image at /in/red.png. *)
Definition fs_red : FileSystem := {|
  walk_files := Demo.lookup [] [];
  glob := Demo.lookup [] [];
  imread := Demo.lookup (Raise IOError) [("/in/red.png", Ok Demo.red)]
|}.

(** A framework whose model detects the top row of every image. *)
Definition framework : Framework := {|
  ROOT_DIR := "/repo";
  path_exists := fun _ => false;
  find_last := "/repo/logs/ear20190101T0000/mask_rcnn_ear_0030.h5";
  get_imagenet_weights := "/repo/resnet50_weights.h5";
  prepare := ret tt;
  detect_masks := fun _ => Demo.top_row;
  now := "20190101T120000"
|}.

Definition evaluate_image : Args := {|
  command := "evaluate"; dataset := None; weights := "COCO"; logs := "/repo/logs";
  image := Some "/in/red.png"; video := None
|}.

Definition evaluate_video : Args := {|
  command := "evaluate"; dataset := None; weights := "last"; logs := "/repo/logs";
  image := None; video := Some "/in/clip.mp4"
|}.

Definition splash_command : Args := {|
  command := "splash"; dataset := None; weights := "/w/Ears.h5"; logs := "/repo/logs";
  image := Some "/in/red.png"; video := None
|}.

Definition train_command : Args := {|
  command := "train"; dataset := Some "/data"; weights := "imagenet"; logs := "/repo/logs";
  image := None; video := None
|}.

Definition train_without_dataset : Args := {|
  command := "train"; dataset := None; weights := "coco"; logs := "/repo/logs";
  image := None; video := None
|}.

(** A mask stack for a 2x2 image whose two instances are empty. *)
Definition two_empty_instances : ndarray bool :=
  Ndarray [2; 2; 2] [false; false; false; false; false; false; false; false].

End Examples.

(** ** Notions the properties of the script are stated with *)

(** The path that the block "Select weights file to load" chooses. *)
Definition selected_weights (fw : Framework) (args : Args) : string :=
  if String.eqb (lower (weights args)) "coco" then COCO_WEIGHTS_PATH fw
  else if String.eqb (lower (weights args)) "last" then find_last fw
  else if String.eqb (lower (weights args)) "imagenet" then get_imagenet_weights fw
  else weights args.

(** The calls of [model.load_weights]. *)
Definition is_load_weights (ev : event) : bool :=
  match ev with
  | LoadWeights _ _ => true
  | _ => false
  end.

(** The events of training, of detection and of writing an image. *)
Definition is_model_work (ev : event) : bool :=
  match ev with
  | ModelTrain _ _ _ _ | ModelDetect _ | Imsave _ _ => true
  | _ => false
  end.


(** * Properties *)

Unset Implicit Arguments.
Import Posixpath.
Close Scope string_scope.

(** ** Lists *)

(** A list is the list of its elements taken by index. *)
Lemma map_nth_seq {A} (d : A) (l : list A) :
  map (fun p => nth p l d) (seq 0 (List.length l)) = l.
Proof.
  induction l as [|x l IH]; cbn.
  - reflexivity.
  - f_equal. rewrite <- seq_shift, map_map. exact IH.
Qed.

(** The [i]-th element of a list given by index. *)
Lemma nth_map_seq {A} (f : nat -> A) d m i :
  i < m -> nth i (map f (seq 0 m)) d = f i.
Proof.
  intros Hi. rewrite (nth_indep _ d (f 0)) by (rewrite length_map, length_seq; exact Hi).
  rewrite (map_nth f (seq 0 m) 0 i), seq_nth by exact Hi. reflexivity.
Qed.

(** The length of a concatenation of pieces of one length. *)
Lemma length_flat_map_const {A B} (f : A -> list B) n l :
  (forall x, In x l -> List.length (f x) = n) ->
  List.length (flat_map f l) = List.length l * n.
Proof.
  induction l as [|x l IH]; intros Hlen; cbn.
  - reflexivity.
  - rewrite length_app, Hlen, IH; [reflexivity| |left; reflexivity].
    intros y Hy. apply Hlen. right. exact Hy.
Qed.

Lemma map_flat_map {A B C} (h : B -> C) (f : A -> list B) l :
  map h (flat_map f l) = flat_map (fun x => map h (f x)) l.
Proof.
  induction l as [|x l IH]; cbn; [reflexivity|].
  rewrite map_app, IH. reflexivity.
Qed.

Lemma flat_map_map {A B C} (f : B -> list C) (g : A -> B) l :
  flat_map f (map g l) = flat_map (fun x => f (g x)) l.
Proof.
  induction l as [|x l IH]; cbn; [reflexivity|]. rewrite IH. reflexivity.
Qed.

Lemma map_singletons {A B} (f : A -> B) l :
  map f l = flat_map (fun x => [f x]) l.
Proof. induction l as [|x l IH]; cbn; [reflexivity|]. rewrite IH. reflexivity. Qed.

(** [existsb] does not depend on the order of the list. *)
Lemma existsb_Permutation {A} (f : A -> bool) l l' :
  Permutation l l' -> existsb f l = existsb f l'.
Proof.
  induction 1 as [|x l l' _ IH|x y l|l l' l'' _ IH1 _ IH2]; cbn.
  - reflexivity.
  - rewrite IH. reflexivity.
  - destruct (f x), (f y); reflexivity.
  - congruence.
Qed.

(** ** Arrays *)

(** [shape_eqb] decides the equality of shapes. *)
Lemma shape_eqb_eq s t : shape_eqb s t = true <-> s = t.
Proof.
  revert t. induction s as [|m s IH]; intros [|n t]; cbn; try (split; congruence).
  rewrite Bool.andb_true_iff, Nat.eqb_eq, IH. split.
  - intros [-> ->]. reflexivity.
  - intros H. injection H as -> ->. auto.
Qed.

Lemma shape_eqb_refl s : shape_eqb s s = true.
Proof. apply shape_eqb_eq. reflexivity. Qed.

(** The size of a shape with one more axis at the end. *)
Lemma size_snoc s n : size (s ++ [n]) = size s * n.
Proof.
  induction s as [|m s IH]; cbn.
  - lia.
  - fold (size (s ++ [n])). fold (size s). rewrite IH. lia.
Qed.

Lemma shape_last_snoc {A} (a : ndarray A) (s : list nat) n :
  shape a = (s ++ [n])%list -> shape_last a = Ok n.
Proof. intros H. unfold shape_last. rewrite H, rev_app_distr. reflexivity. Qed.

Lemma shape_init_snoc {A} (a : ndarray A) (s : list nat) n :
  shape a = (s ++ [n])%list -> shape_init a = s.
Proof. intros H. unfold shape_init. rewrite H. apply removelast_last. Qed.

(** In an array of [m] lanes of length [n], every lane has length [n]. *)
Lemma length_lane {A} n i m (d : list A) :
  List.length d = m * n -> i < m -> List.length (lane n i d) = n.
Proof.
  intros Hlen Hi. unfold lane. rewrite length_firstn, length_skipn.
  assert (S i * n <= m * n) by (apply Nat.mul_le_mono_r; lia). lia.
Qed.

(** The elements of a lane are elements of the array. *)
Lemma lane_incl {A} n i (d : list A) x : In x (lane n i d) -> In x d.
Proof.
  unfold lane. intros H.
  rewrite <- (firstn_skipn (i * n) d). apply in_or_app. right.
  rewrite <- (firstn_skipn n (skipn (i * n) d)). apply in_or_app. left. exact H.
Qed.

(** The [i]-th lane of an array given lane by lane. *)
Lemma lane_flat_map {A} (f : nat -> list A) n m i :
  (forall p, p < m -> List.length (f p) = n) ->
  i < m ->
  lane n i (flat_map f (seq 0 m)) = f i.
Proof.
  intros Hlen Hi. unfold lane.
  replace m with (i + S (m - S i)) by lia.
  rewrite seq_app, flat_map_app. cbn [seq flat_map Nat.add].
  assert (Hpre : List.length (flat_map f (seq 0 i)) = i * n).
  { rewrite (length_flat_map_const f n).
    - rewrite length_seq. reflexivity.
    - intros x Hx. apply in_seq in Hx. apply Hlen. lia. }
  rewrite skipn_app, Hpre, Nat.sub_diag. cbn [skipn].
  rewrite skipn_all2 by lia. cbn [app].
  rewrite firstn_app, (Hlen i Hi), Nat.sub_diag. cbn [firstn].
  rewrite app_nil_r. apply firstn_all2. rewrite (Hlen i Hi). lia.
Qed.

(** The column at a position that all arrays have. *)
Lemma column_nth {A} (d : A) p (arrays : list (ndarray A)) :
  Forall (fun a => p < List.length (data a)) arrays ->
  column p arrays = map (fun a => nth p (data a) d) arrays.
Proof.
  induction 1 as [|a arrays Ha _ IH]; cbn.
  - reflexivity.
  - fold (column p arrays). rewrite IH.
    destruct (nth_error (data a) p) as [x|] eqn:E.
    + rewrite (nth_error_nth _ _ d E). reflexivity.
    + apply nth_error_None in E. lia.
Qed.

(** [np.stack] of one array or more, all of shape [sh]. *)
Lemma stack_same_shape {A} (arrays : list (ndarray A)) sh :
  arrays <> [] ->
  Forall (fun a => shape a = sh) arrays ->
  Np.stack arrays =
    Ok (Ndarray (sh ++ [List.length arrays])%list
                (flat_map (fun p => column p arrays) (seq 0 (size sh)))).
Proof.
  intros Hne Hall. destruct arrays as [|a rest]; [congruence|].
  unfold Np.stack.
  assert (Ha : shape a = sh) by (inversion Hall; assumption).
  replace (forallb _ (a :: rest)) with true.
  - rewrite Ha. reflexivity.
  - symmetry. apply forallb_forall. intros b Hb.
    apply shape_eqb_eq. rewrite Forall_forall in Hall.
    rewrite (Hall b Hb). auto.
Qed.

(** [np.stack] of arrays two of which differ in shape. *)
Lemma stack_different_shapes {A} (arrays : list (ndarray A)) a b :
  In a arrays -> In b arrays -> shape a <> shape b ->
  Np.stack arrays = Raise ValueError.
Proof.
  intros Ha Hb Hdiff. destruct arrays as [|x rest]; [contradiction|].
  unfold Np.stack.
  destruct (forallb _ (x :: rest)) eqn:Hall; [|reflexivity].
  rewrite forallb_forall in Hall.
  apply Hall in Ha. apply Hall in Hb.
  apply shape_eqb_eq in Ha. apply shape_eqb_eq in Hb. congruence.
Qed.

(** The [j]-th instance of a stack is the [j]-th array stacked. *)
Lemma stack_instance (arrays : list (ndarray bool)) sh j a :
  Forall (fun b => shape b = sh /\ well_formed b) arrays ->
  nth_error arrays j = Some a ->
  instance_of j (Ndarray (sh ++ [List.length arrays])%list
                         (flat_map (fun p => column p arrays) (seq 0 (size sh))))
  = a.
Proof.
  intros Hall Hj.
  assert (Hlen : Forall (fun b => List.length (data b) = size sh) arrays).
  { eapply Forall_impl; [|exact Hall]. cbn. intros b [Hs Hw].
    unfold well_formed in Hw. congruence. }
  assert (Ha : shape a = sh /\ well_formed a).
  { rewrite Forall_forall in Hall. apply Hall. eapply nth_error_In; eauto. }
  destruct Ha as [Hsa Hwa]. unfold well_formed in Hwa. rewrite Hsa in Hwa.
  unfold instance_of, shape_init. cbn [shape data].
  rewrite removelast_last, last_last.
  destruct a as [sa da]. cbn in Hsa, Hwa. subst sa. f_equal.
  etransitivity; [|apply (map_nth_seq false da)]. rewrite Hwa.
  apply map_ext_in. intros i Hi. apply in_seq in Hi.
  assert (Hcol : forall p, p < size sh ->
            column p arrays = map (fun b => nth p (data b) false) arrays).
  { intros p Hp. apply column_nth. eapply Forall_impl; [|exact Hlen].
    cbn. intros b Hb. lia. }
  rewrite lane_flat_map; [| |lia].
  - rewrite (Hcol i) by lia.
    rewrite (nth_error_nth _ _ false
               (map_nth_error (fun b => nth i (data b) false) _ _ Hj)).
    reflexivity.
  - intros p Hp. rewrite (Hcol p Hp). apply length_map.
Qed.

Lemma count_true_nonneg l : (0 <= count_true l)%Z.
Proof.
  induction l as [|b l IH]; [cbn; lia|].
  unfold count_true in *. cbn [fold_right]. destruct b; lia.
Qed.

(** A count of True is at least 1 exactly when some element is True. *)
Lemma count_true_ge1 l : (1 <=? count_true l)%Z = existsb (fun b => b) l.
Proof.
  induction l as [|b l IH]; [reflexivity|].
  pose proof (count_true_nonneg l) as Hpos.
  unfold count_true in *. cbn [fold_right existsb]. destruct b; cbn [orb].
  - apply Z.leb_le. lia.
  - rewrite Z.add_0_l. exact IH.
Qed.

(** [union_mask] for a stack of shape [s ++ [n]]. *)
Lemma union_mask_eq mask s n :
  shape mask = (s ++ [n])%list ->
  union_mask mask =
    Ndarray (s ++ [1])
            (map (fun i => existsb (fun b => b) (lane n i (data mask)))
                 (seq 0 (size s))).
Proof.
  intros Hshape. unfold union_mask, shape_init.
  rewrite Hshape, removelast_last, last_last. reflexivity.
Qed.

(** The collapse [np.sum(mask, -1, keepdims=True) >= 1] of [color_splash]
    is the pixelwise OR of the instances. *)
Lemma collapse_is_union mask s n :
  shape mask = (s ++ [n])%list ->
  (x <- sum_last_keepdims mask ;; Ok (ge1 x)) = Ok (union_mask mask).
Proof.
  intros Hshape. unfold sum_last_keepdims, union_mask.
  rewrite (shape_last_snoc mask s n Hshape), (shape_init_snoc mask s n Hshape).
  rewrite Hshape, last_last. cbn. unfold ge1. cbn. rewrite map_map.
  do 2 f_equal. apply map_ext. intros i. apply count_true_ge1.
Qed.

(** The union of a stack does not depend on the order of its instances. *)
Lemma union_mask_permute sigma mask s n :
  shape mask = (s ++ [n])%list ->
  well_formed mask ->
  Permutation sigma (seq 0 n) ->
  union_mask (permute_instances sigma mask) = union_mask mask.
Proof.
  intros Hshape Hwf Hperm.
  assert (Hlen : List.length sigma = n)
    by (rewrite (Permutation_length Hperm); apply length_seq).
  unfold well_formed in Hwf. rewrite Hshape, size_snoc in Hwf.
  unfold union_mask, permute_instances, shape_init. cbn [shape data].
  rewrite Hshape, Hlen, !removelast_last, !last_last. f_equal.
  apply map_ext_in. intros i Hi. apply in_seq in Hi.
  rewrite lane_flat_map; [| |lia].
  - apply existsb_Permutation.
    pose proof (map_nth_seq false (lane n i (data mask))) as E.
    rewrite (length_lane n i (size s) (data mask) Hwf) in E by lia.
    eapply perm_trans; [apply Permutation_map; exact Hperm|].
    rewrite E. apply Permutation_refl.
  - intros p _. rewrite length_map. exact Hlen.
Qed.

(** The union of a union is that union. *)
Lemma union_mask_idempotent mask s n :
  shape mask = (s ++ [n])%list ->
  union_mask (union_mask mask) = union_mask mask.
Proof.
  intros Hshape.
  rewrite (union_mask_eq (union_mask mask) s 1)
    by (rewrite (union_mask_eq mask s n Hshape); reflexivity).
  rewrite (union_mask_eq mask s n Hshape). cbn [data]. f_equal.
  apply map_ext_in. intros i Hi. apply in_seq in Hi.
  rewrite map_singletons, lane_flat_map; [|reflexivity|lia].
  cbn. apply Bool.orb_false_r.
Qed.

Lemma truncate_inject_Z v : truncate (inject_Z v) = v.
Proof. unfold truncate. cbn. apply Z.quot_1_r. Qed.

(** uint8 to float64 and back is the identity. *)
Lemma uint8_roundtrip d :
  Forall (fun v => (0 <= v <= 255)%Z) d ->
  map (fun q => (truncate q mod 256)%Z) (map inject_Z d) = d.
Proof.
  induction 1 as [|v d Hv _ IH]; cbn [map]; [reflexivity|].
  rewrite IH, truncate_inject_Z, Z.mod_small by lia. reflexivity.
Qed.




(** [rgb2gray] of an image of three channels. *)
Lemma rgb2gray_shape image s :
  shape image = (s ++ [3])%list ->
  Skimage.rgb2gray image =
    Ok (Ndarray s
          (map (fun i => match lane 3 i (data image) with
                         | [r; g; b] =>
                             Skimage.luminance (Skimage.img_as_float r)
                                               (Skimage.img_as_float g)
                                               (Skimage.img_as_float b)
                         | _ => 0%Q
                         end)
               (seq 0 (size s)))).
Proof.
  intros Hshape. unfold Skimage.rgb2gray.
  rewrite (shape_last_snoc image s 3 Hshape), (shape_init_snoc image s 3 Hshape).
  reflexivity.
Qed.

(** The elements of [gray.astype(np.uint8)], pixel by pixel. *)
Lemma gray_data s (L : nat -> Q) :
  data (astype_uint8 (mul_scalar (Skimage.gray2rgb (Ndarray s (map L (seq 0 (size s))))) 255))
  = flat_map (fun i => let v := (truncate (L i * 255) mod 256)%Z in [v; v; v])
             (seq 0 (size s)).
Proof.
  unfold astype_uint8, mul_scalar, Skimage.gray2rgb. cbn [shape data].
  rewrite flat_map_map, !map_flat_map. reflexivity.
Qed.

(** ** Properties of [EarDataset] *)

Open Scope string_scope.

(** [load_mask] on a record of the ear source: the parent class is not
    consulted and [self] is left as it is. *)
Lemma load_mask_ear fs pc s image_id info m :
  py_index (image_info s) image_id = Ok info ->
  info_source info = "ear" ->
  info_mask info = Some m ->
  load_mask fs pc image_id s =
    (mask <- read_masks fs (Posixpath.dirname m)
               (glob fs (fst (Posixpath.splitext m) ++ "_?.*")) ;;
     mask <- Np.stack mask ;;
     n <- shape_last mask ;;
     Ok (mask, Np.ones n), s).
Proof.
  intros Hidx Hsrc Hmask.
  unfold load_mask, get_image_info, lift. cbn.
  rewrite Hidx. cbn. rewrite Hsrc. cbn. rewrite Hmask. cbn.
  destruct (read_masks _ _ _) as [masks|e]; cbn; [|reflexivity].
  destruct (Np.stack masks) as [mask|e]; cbn; [|reflexivity].
  destruct (shape_last mask); reflexivity.
Qed.

(** The reading loop, when every file is read. *)
Lemma read_masks_ok fs parent files arrs :
  Forall2 (fun file a => imread fs (join parent file) = Ok a) files arrs ->
  read_masks fs parent files = Ok (map astype_bool arrs).
Proof.
  induction 1 as [|file a files arrs Hread _ IH]; cbn.
  - reflexivity.
  - rewrite Hread, IH. reflexivity.
Qed.

(** [load_mask] leaves [self] as it is, whatever its outcome. *)
Lemma load_mask_state_unchanged fs pc s image_id info m :
  py_index (image_info s) image_id = Ok info ->
  info_source info = "ear" ->
  info_mask info = Some m ->
  snd (load_mask fs pc image_id s) = s.
Proof.
  intros Hidx Hsrc Hmask.
  rewrite (load_mask_ear fs pc s image_id info m Hidx Hsrc Hmask). reflexivity.
Qed.

(** C1: for a record of the ear source with no matching instance-mask file,
    [load_mask] does not return an empty mask stack: the empty list reaches
    [np.stack], which raises ValueError. *)
Theorem load_mask_no_files_raises fs pc s image_id info m :
  py_index (image_info s) image_id = Ok info ->
  info_source info = "ear" ->
  info_mask info = Some m ->
  glob fs (fst (splitext m) ++ "_?.*") = [] ->
  load_mask fs pc image_id s = (Raise ValueError, s).
Proof.
  intros Hidx Hsrc Hmask Hglob.
  rewrite (load_mask_ear fs pc s image_id info m Hidx Hsrc Hmask), Hglob.
  reflexivity.
Qed.

Lemma load_mask_no_files_raises_witness :
  load_mask Demo.fs Demo.parent_class 1 (Demo.loaded Demo.fs "/data" "train")
  = (Raise ValueError, Demo.loaded Demo.fs "/data" "train").
Proof.
  eapply load_mask_no_files_raises; reflexivity.
Defined.

(** C9: for a record of the ear source with [k] matching instance-mask
    files, all readable and of one shape: when [k >= 1], [load_mask]
    returns a stack of [k] masks, the [j]-th of which is the [j]-th file
    decoded, and [k] class ids, all equal to 1; when [k = 0] it raises
    ValueError instead of returning two empty sequences. *)
Theorem load_mask_instance_count fs pc s image_id info m arrs sh :
  py_index (image_info s) image_id = Ok info ->
  info_source info = "ear" ->
  info_mask info = Some m ->
  Forall2 (fun file a => imread fs (join (dirname m) file) = Ok a)
          (glob fs (fst (splitext m) ++ "_?.*")) arrs ->
  Forall (fun a => shape a = sh /\ well_formed a) arrs ->
  let k := List.length (glob fs (fst (splitext m) ++ "_?.*")) in
  (k = 0 -> load_mask fs pc image_id s = (Raise ValueError, s)) /\
  (0 < k ->
   exists mask,
     load_mask fs pc image_id s = (Ok (mask, Ndarray [k] (repeat 1%Z k)), s) /\
     shape mask = (sh ++ [k])%list /\
     forall j a, nth_error arrs j = Some a -> instance_of j mask = astype_bool a).
Proof.
  intros Hidx Hsrc Hmask Hread Hall k.
  rewrite (load_mask_ear fs pc s image_id info m Hidx Hsrc Hmask).
  rewrite (read_masks_ok fs _ _ _ Hread).
  assert (Hk : k = List.length (map astype_bool arrs)).
  { unfold k. rewrite length_map. eapply Forall2_length; eauto. }
  assert (Hall' : Forall (fun b => shape b = sh /\ well_formed b) (map astype_bool arrs)).
  { apply Forall_map. eapply Forall_impl; [|exact Hall]. cbn.
    intros a [Hs Hw]. split; [exact Hs|].
    unfold well_formed in *. cbn. rewrite length_map. exact Hw. }
  split.
  - intros H0. rewrite H0 in Hk. symmetry in Hk. apply length_zero_iff_nil in Hk.
    rewrite Hk. reflexivity.
  - intros Hpos. cbn [bind Monad_result].
    rewrite (stack_same_shape (map astype_bool arrs) sh).
    + rewrite <- Hk. eexists. split; [|split].
      * erewrite shape_last_snoc by reflexivity. reflexivity.
      * reflexivity.
      * intros j a Hj. rewrite Hk. apply stack_instance; [exact Hall'|].
        apply map_nth_error. exact Hj.
    + intros E. rewrite E in Hk. cbn in Hk. lia.
    + eapply Forall_impl; [|exact Hall']. cbn. tauto.
Qed.

Lemma load_mask_instance_count_witness :
  load_mask Demo.fs Demo.parent_class 1 (Demo.loaded Demo.fs "/data" "train")
    = (Raise ValueError, Demo.loaded Demo.fs "/data" "train") /\
  exists mask,
    load_mask Demo.fs Demo.parent_class 0 (Demo.loaded Demo.fs "/data" "train")
      = (Ok (mask, Ndarray [2] [1; 1]%Z), Demo.loaded Demo.fs "/data" "train") /\
    shape mask = [2; 2; 2].
Proof.
  split.
  - edestruct (load_mask_instance_count Demo.fs Demo.parent_class
                 (Demo.loaded Demo.fs "/data" "train") 1
                 (ear_record "/data" "train" "b.png" (1, 2))
                 "/data/trainannot/b.png" [] [2; 2]) as [Hnone _];
      [reflexivity | reflexivity | reflexivity
      | vm_compute; constructor | constructor | ].
    apply Hnone. reflexivity.
  - edestruct (load_mask_instance_count Demo.fs Demo.parent_class
                 (Demo.loaded Demo.fs "/data" "train") 0
                 (ear_record "/data" "train" "a.png" (2, 2))
                 "/data/trainannot/a.png"
                 [Ndarray [2; 2] [255; 255; 0; 0]%Z; Ndarray [2; 2] [0; 0; 0; 255]%Z]
                 [2; 2]) as [_ Hsome];
      [reflexivity | reflexivity | reflexivity
      | vm_compute; repeat constructor
      | repeat constructor | ].
    destruct Hsome as [mask [Hrun [Hshape _]]]; [vm_compute; lia|].
    exists mask. split; [exact Hrun | exact Hshape].
Defined.

(** C2 (as amended): [load_mask] does not compare a decoded mask with the
    height and width that the record declares. It leaves the catalog
    unchanged; its outcome is the same for every record of the same mask
    path; it raises ValueError when two decoded masks differ in shape from
    each other, and returns the stack when there is at least one mask and
    all decoded masks have one shape. *)
Theorem load_mask_ignores_declared_size fs pc s image_id info m :
  py_index (image_info s) image_id = Ok info ->
  info_source info = "ear" ->
  info_mask info = Some m ->
  snd (load_mask fs pc image_id s) = s /\
  (forall s2 id2 info2,
      py_index (image_info s2) id2 = Ok info2 ->
      info_source info2 = "ear" ->
      info_mask info2 = Some m ->
      fst (load_mask fs pc id2 s2) = fst (load_mask fs pc image_id s)) /\
  (forall arrs,
      Forall2 (fun file a => imread fs (join (dirname m) file) = Ok a)
              (glob fs (fst (splitext m) ++ "_?.*")) arrs ->
      ((exists a b, In a arrs /\ In b arrs /\ shape a <> shape b) ->
       fst (load_mask fs pc image_id s) = Raise ValueError) /\
      (arrs <> [] ->
       (forall a b, In a arrs -> In b arrs -> shape a = shape b) ->
       exists mask, fst (load_mask fs pc image_id s)
                    = Ok (mask, Np.ones (List.length arrs)))).
Proof.
  intros Hidx Hsrc Hmask. split; [|split].
  - exact (load_mask_state_unchanged fs pc s image_id info m Hidx Hsrc Hmask).
  - intros s2 id2 info2 Hidx2 Hsrc2 Hmask2.
    rewrite (load_mask_ear fs pc s image_id info m Hidx Hsrc Hmask).
    rewrite (load_mask_ear fs pc s2 id2 info2 m Hidx2 Hsrc2 Hmask2).
    reflexivity.
  - intros arrs Hread.
    rewrite (load_mask_ear fs pc s image_id info m Hidx Hsrc Hmask).
    rewrite (read_masks_ok fs _ _ _ Hread). cbn [fst bind Monad_result].
    split.
    + intros (a & b & Ha & Hb & Hdiff).
      rewrite (stack_different_shapes (map astype_bool arrs)
                 (astype_bool a) (astype_bool b)); auto using in_map.
    + intros Hne Hsame.
      destruct arrs as [|a0 rest] eqn:E; [congruence|]. rewrite <- E in *.
      rewrite (stack_same_shape (map astype_bool arrs) (shape a0)).
      * eexists. erewrite shape_last_snoc by reflexivity.
        rewrite length_map. reflexivity.
      * rewrite E. discriminate.
      * apply Forall_map, Forall_forall. intros a Ha. cbn.
        apply Hsame; [exact Ha|]. rewrite E. left. reflexivity.
Qed.

Lemma load_mask_ignores_declared_size_witness :
  info_height (ear_record "/data" "train" "a.png" (4, 4)) = Some 4 /\
  shape (Ndarray [2; 2] [255; 255; 0; 0]%Z) = [2; 2] /\
  exists mask,
    fst (load_mask Demo.fs_small_mask Demo.parent_class 0
           (Demo.loaded Demo.fs_small_mask "/data" "train"))
    = Ok (mask, Np.ones 1).
Proof.
  split; [reflexivity|]. split; [reflexivity|].
  edestruct (load_mask_ignores_declared_size Demo.fs_small_mask Demo.parent_class
               (Demo.loaded Demo.fs_small_mask "/data" "train") 0
               (ear_record "/data" "train" "a.png" (4, 4))
               "/data/trainannot/a.png") as [_ [_ Hshapes]];
    [reflexivity | reflexivity | reflexivity | ].
  edestruct (Hshapes [Ndarray [2; 2] [255; 255; 0; 0]%Z]) as [_ Hok];
    [vm_compute; repeat constructor|].
  apply Hok.
  - discriminate.
  - intros a b [<-|[]] [<-|[]]. reflexivity.
Defined.

(** C2, counterexample: the record declares 4 x 4, its only mask file
    decodes to 2 x 2, and [load_mask] returns the 2 x 2 stack. *)
Lemma load_mask_accepts_other_size :
  py_index (image_info (Demo.loaded Demo.fs_small_mask "/data" "train")) 0
    = Ok (ear_record "/data" "train" "a.png" (4, 4)) /\
  imread Demo.fs_small_mask "/data/trainannot/a_0.png"
    = Ok (Ndarray [2; 2] [255; 255; 0; 0]%Z) /\
  load_mask Demo.fs_small_mask Demo.parent_class 0
            (Demo.loaded Demo.fs_small_mask "/data" "train")
    = (Ok (Ndarray [2; 2; 1] [true; true; false; false], Ndarray [1] [1%Z]),
       Demo.loaded Demo.fs_small_mask "/data" "train").
Proof. repeat split. Qed.

(** C3: for a subset name other than "train" and "test", [load_ear] fails
    at its assertion, before any image is added to the catalog. *)
Theorem load_ear_invalid_subset fs dataset_dir subset s :
  subset <> "train" ->
  subset <> "test" ->
  fst (load_ear fs dataset_dir subset s) = Raise AssertionError /\
  image_info (snd (load_ear fs dataset_dir subset s)) = image_info s.
Proof.
  intros Htrain Htest.
  apply String.eqb_neq in Htrain. apply String.eqb_neq in Htest.
  unfold load_ear, Utils.add_class, assert_, lift. cbn.
  rewrite Htrain, Htest. cbn.
  destruct (existsb _ (class_info s)); cbn; split; reflexivity.
Qed.

Lemma load_ear_invalid_subset_witness :
  fst (load_ear Demo.fs "/data" "bogus" Utils.new_dataset) = Raise AssertionError.
Proof.
  apply (load_ear_invalid_subset Demo.fs "/data" "bogus" Utils.new_dataset);
    discriminate.
Defined.

(** The loop of [load_ear], when every file of the listing decodes. *)
Lemma load_ear_loop fs dataset_dir subset files sizes :
  Forall2 (fun filename hw =>
             exists img,
               imread fs (join (join dataset_dir subset) filename) = Ok img /\
               firstn 2 (shape img) = [fst hw; snd hw])
          files sizes ->
  forall s,
    for_each files (fun filename =>
      img <- lift (imread fs (join (join dataset_dir subset) filename)) ;;
      hw <- lift (unpack2 (firstn 2 (shape img))) ;;
      let '(height, width) := hw in
      Utils.add_image "ear" (fst (splitext filename))
                      (join (join dataset_dir subset) filename)
                      width height
                      (join (join dataset_dir (subset ++ "annot")) filename)) s
    = (Ok tt,
       {| class_info := class_info s;
          image_info := image_info s ++
                        map (fun fhw => ear_record dataset_dir subset (fst fhw) (snd fhw))
                            (combine files sizes) |}).
Proof.
  induction 1 as [|filename hw files sizes (img & Himg & Hshape) _ IH]; intros s.
  - cbn. rewrite app_nil_r. destruct s; reflexivity.
  - cbn [for_each]. cbn [bind Monad_M]. unfold lift at 1. rewrite Himg.
    unfold lift at 1. rewrite Hshape. cbn [unpack2].
    unfold Utils.add_image at 1. rewrite IH. cbn [class_info image_info combine map].
    rewrite <- app_assoc. destruct hw. reflexivity.
Qed.

(** C8 (as amended): when the subset is "train" or "test" and every file
    of the images directory decodes, [load_ear] appends one record per
    file, in the order of the listing: its id is the file name without
    extension, its path and mask path are the joined paths, its height
    and width are those of the decoded image. The ids are pairwise
    distinct exactly when the file names without extension are. *)
Theorem load_ear_catalog fs dataset_dir subset s sizes :
  subset = "train" \/ subset = "test" ->
  Forall2 (fun filename hw =>
             exists img,
               imread fs (join (join dataset_dir subset) filename) = Ok img /\
               firstn 2 (shape img) = [fst hw; snd hw])
          (walk_files fs (join dataset_dir subset)) sizes ->
  let files := walk_files fs (join dataset_dir subset) in
  let records := map (fun fhw => ear_record dataset_dir subset (fst fhw) (snd fhw))
                     (combine files sizes) in
  load_ear fs dataset_dir subset s
    = (Ok tt,
       {| class_info := class_info (snd (Utils.add_class "ear" 1 "ear" s));
          image_info := (image_info s ++ records)%list |}) /\
  List.length records = List.length files /\
  map info_id records = map (fun filename => fst (splitext filename)) files /\
  (NoDup (map info_id records) <->
   NoDup (map (fun filename => fst (splitext filename)) files)).
Proof.
  intros Hsubset Hread files records.
  assert (Hlen : List.length sizes = List.length files)
    by (symmetry; eapply Forall2_length; exact Hread).
  assert (Hids : map info_id records
                 = map (fun filename => fst (splitext filename)) files).
  { unfold records. rewrite map_map. cbn [ear_record info_id].
    clear records. clearbody files. clear Hread. revert sizes Hlen.
    induction files as [|f files IH]; intros [|hw sizes] Hlen;
      cbn in *; try discriminate; [reflexivity|].
    f_equal. apply IH. lia. }
  split; [|split; [|split]].
  - unfold load_ear, Utils.add_class, assert_, lift.
    cbn [bind Monad_M Utils.contains Ascii.eqb Bool.eqb orb negb].
    replace (existsb (String.eqb subset) ["train"; "test"]) with true
      by (destruct Hsubset; subst subset; reflexivity).
    destruct (existsb _ (class_info s));
      rewrite (load_ear_loop fs dataset_dir subset _ _ Hread); reflexivity.
  - unfold records. rewrite length_map, length_combine. fold files. lia.
  - exact Hids.
  - rewrite Hids. reflexivity.
Qed.

Lemma load_ear_catalog_witness :
  load_ear Demo.fs "/data" "train" Utils.new_dataset
  = (Ok tt,
     {| class_info := [ {| ci_source := ""; ci_id := 0; ci_name := "BG" |};
                        {| ci_source := "ear"; ci_id := 1; ci_name := "ear" |} ];
        image_info := [ ear_record "/data" "train" "a.png" (2, 2);
                        ear_record "/data" "train" "b.png" (1, 2) ] |}).
Proof.
  edestruct (load_ear_catalog Demo.fs "/data" "train" Utils.new_dataset
               [(2, 2); (1, 2)]) as [Hrun _];
    [left; reflexivity
    | vm_compute; repeat (constructor; try (eexists; split; reflexivity))
    | ].
  exact Hrun.
Defined.

(** C8, counterexample: a directory with a.png and a.jpg gives two records
    with the id "a". *)
Lemma load_ear_same_stem_same_id :
  NoDup (walk_files Demo.fs_same_stem "/data/train") /\
  fst (load_ear Demo.fs_same_stem "/data" "train" Utils.new_dataset) = Ok tt /\
  map info_id (image_info (Demo.loaded Demo.fs_same_stem "/data" "train"))
    = ["a"; "a"] /\
  ~ NoDup (map info_id (image_info (Demo.loaded Demo.fs_same_stem "/data" "train"))).
Proof.
  split; [|split; [|split]].
  - repeat constructor; cbn; intuition discriminate.
  - reflexivity.
  - reflexivity.
  - intros H. change (NoDup ["a"; "a"]) in H. inversion H as [|x l Hin _].
    apply Hin. left. reflexivity.
Qed.

(** C10: for a record whose source is not "ear", [image_reference] calls
    the parent class and, whatever string that call returns, returns
    None. *)
Theorem image_reference_foreign_returns_None pc s image_id info r s' :
  py_index (image_info s) image_id = Ok info ->
  info_source info <> "ear" ->
  super_image_reference pc image_id s = (Ok r, s') ->
  image_reference pc image_id s = (Ok None, s').
Proof.
  intros Hidx Hsrc Hsuper. apply String.eqb_neq in Hsrc.
  unfold image_reference, get_image_info, lift. cbn.
  rewrite Hidx. cbn. rewrite Hsrc. cbn. rewrite Hsuper. reflexivity.
Qed.

Lemma image_reference_foreign_returns_None_witness :
  super_image_reference Demo.parent_class 0 Demo.foreign
    = (Ok "http://example.org/image", Demo.foreign) /\
  image_reference Demo.parent_class 0 Demo.foreign = (Ok None, Demo.foreign).
Proof.
  split; [reflexivity|].
  apply (image_reference_foreign_returns_None Demo.parent_class Demo.foreign 0
           {| info_id := "42"; info_source := "coco"; info_path := "/coco/42.jpg";
              info_width := Some 2; info_height := Some 2;
              info_mask := Some "/coco/42.png" |}
           "http://example.org/image" Demo.foreign);
    [reflexivity | discriminate | reflexivity].
Defined.

Close Scope string_scope.

(** ** Properties of [color_splash] *)

(** [color_splash] for a stack of one instance or more. *)
Lemma color_splash_nonempty image mask s n :
  shape mask = (s ++ [n])%list ->
  0 < n ->
  color_splash image mask =
    (g <- Skimage.rgb2gray image ;;
     splash <- where_ (union_mask mask) (astype_float image)
                      (mul_scalar (Skimage.gray2rgb g) 255) ;;
     Ok (astype_uint8 splash)).
Proof.
  intros Hshape Hn. unfold color_splash.
  destruct (Skimage.rgb2gray image) as [g|e]; cbn [bind Monad_result]; [|reflexivity].
  rewrite (shape_last_snoc mask s n Hshape).
  replace (0 <? n) with true by (symmetry; apply Nat.ltb_lt; exact Hn).
  pose proof (collapse_is_union mask s n Hshape) as Hc.
  cbn [bind Monad_result] in Hc.
  destruct (sum_last_keepdims mask) as [x|e]; [|discriminate].
  assert (Hu : ge1 x = union_mask mask) by congruence.
  cbn [bind Monad_result]. rewrite Hu. reflexivity.
Qed.

(** C5: for a stack of [n >= 1] instance masks, [color_splash] gives the
    same image as for the pixelwise OR of the instances (the stack of one
    instance [union_mask mask]), and the same image for the instances
    taken in any other order. *)
Theorem color_splash_union_only image mask s n sigma :
  shape mask = (s ++ [n])%list ->
  0 < n ->
  well_formed mask ->
  Permutation sigma (seq 0 n) ->
  color_splash image (union_mask mask) = color_splash image mask /\
  color_splash image (permute_instances sigma mask) = color_splash image mask.
Proof.
  intros Hshape Hn Hwf Hperm.
  rewrite (color_splash_nonempty image mask s n Hshape Hn). split.
  - rewrite (color_splash_nonempty image (union_mask mask) s 1).
    + rewrite (union_mask_idempotent mask s n Hshape). reflexivity.
    + rewrite (union_mask_eq mask s n Hshape). reflexivity.
    + exact Nat.lt_0_1.
  - rewrite (color_splash_nonempty image (permute_instances sigma mask) s
               (List.length sigma)).
    + rewrite (union_mask_permute sigma mask s n Hshape Hwf Hperm). reflexivity.
    + unfold permute_instances. cbn [shape].
      rewrite (shape_init_snoc mask s n Hshape). reflexivity.
    + rewrite (Permutation_length Hperm), length_seq. exact Hn.
Qed.

Lemma color_splash_union_only_witness :
  color_splash Demo.red (union_mask Demo.two_instances)
    = color_splash Demo.red Demo.two_instances /\
  color_splash Demo.red (permute_instances [1; 0] Demo.two_instances)
    = color_splash Demo.red Demo.two_instances.
Proof.
  apply (color_splash_union_only Demo.red Demo.two_instances [2; 2] 2 [1; 0]).
  - reflexivity.
  - lia.
  - reflexivity.
  - apply perm_swap.
Defined.

(** C7: for a uint8 image of three channels and a mask stack one instance
    of which is True at every pixel, [color_splash] returns the image. *)
Theorem color_splash_all_true_instance image mask s n j :
  shape image = (s ++ [3])%list ->
  well_formed image ->
  uint8 image ->
  shape mask = (s ++ [n])%list ->
  j < n ->
  (forall i, i < size s -> nth j (lane n i (data mask)) false = true) ->
  color_splash image mask = Ok image.
Proof.
  intros Himg Hwf Hu Hmask Hj Htrue.
  rewrite (color_splash_nonempty image mask s n Hmask) by lia.
  rewrite (rgb2gray_shape image s Himg). cbn [bind Monad_result].
  rewrite (union_mask_eq mask s n Hmask).
  destruct image as [sh d]. unfold well_formed, uint8 in *. cbn [shape data] in *.
  subst sh.
  unfold where_, shape_last, shape_init, mul_scalar, Skimage.gray2rgb, astype_float.
  cbn [shape data]. rewrite !rev_app_distr, !removelast_last. cbn [rev app].
  rewrite !shape_eqb_refl. cbn [andb Nat.eqb bind Monad_result].
  unfold astype_uint8. cbn [shape data]. do 2 f_equal.
  etransitivity; [|exact (uint8_roundtrip d Hu)]. f_equal.
  rewrite <- (length_map inject_Z) in Hwf.
  transitivity (map (fun p => nth p (map inject_Z d) 0%Q) (seq 0 (size (s ++ [3]))));
    [|rewrite <- Hwf; apply (map_nth_seq 0%Q)].
  apply map_ext_in. intros p Hp. apply in_seq in Hp. rewrite size_snoc in Hp.
  assert (Hq : p / 3 < size s) by (apply Nat.Div0.div_lt_upper_bound; lia).
  rewrite nth_map_seq by exact Hq.
  replace (existsb _ _) with true; [reflexivity|].
  symmetry. apply existsb_exists. exists true. split; [|reflexivity].
  rewrite <- (Htrue (p / 3) Hq). apply nth_In.
  destruct (Nat.lt_ge_cases j (List.length (lane n (p / 3) (data mask)))) as [H|H];
    [exact H|].
  pose proof (Htrue (p / 3) Hq) as Hc. rewrite nth_overflow in Hc by exact H.
  discriminate.
Qed.

Lemma color_splash_all_true_instance_witness :
  color_splash Demo.red Demo.all_true = Ok Demo.red.
Proof.
  apply (color_splash_all_true_instance Demo.red Demo.all_true [2; 2] 1 0).
  - reflexivity.
  - reflexivity.
  - unfold uint8. cbn. repeat constructor; lia.
  - reflexivity.
  - lia.
  - intros i Hi. cbn in Hi.
    destruct i as [|[|[|[|i]]]]; [reflexivity .. | lia].
Defined.



(** C4 (as amended): for the 2x2 all-red image and the mask of the top
    row, [color_splash] keeps the top row red and turns the bottom row
    into (54, 54, 54), the gray level 255 * 0.2125 = 54.1875 of red with
    its fraction dropped. *)
Theorem color_splash_red_top_row :
  color_splash Demo.red Demo.top_row
    = Ok (Ndarray [2; 2; 3] [255; 0; 0; 255; 0; 0; 54; 54; 54; 54; 54; 54]%Z) /\
  (gray_level 255 0 0 == 54.1875)%Q.
Proof. split; reflexivity. Qed.

(** C4, counterexample: the bottom row is not within 20 of 76. *)
Lemma color_splash_red_bottom_not_76 :
  ~ exists out,
      color_splash Demo.red Demo.top_row = Ok out /\
      lane 3 0 (data out) = [255; 0; 0]%Z /\
      lane 3 1 (data out) = [255; 0; 0]%Z /\
      Forall (fun v => (Z.abs (v - 76) <= 20)%Z)
             (lane 3 2 (data out) ++ lane 3 3 (data out)).
Proof.
  intros (out & Hrun & _ & _ & Hbottom).
  assert (Hout : out = Ndarray [2; 2; 3] [255; 0; 0; 255; 0; 0; 54; 54; 54; 54; 54; 54]%Z).
  { assert (E : color_splash Demo.red Demo.top_row
                = Ok (Ndarray [2; 2; 3] [255; 0; 0; 255; 0; 0; 54; 54; 54; 54; 54; 54]%Z))
      by reflexivity.
    congruence. }
  subst out. cbn in Hbottom. inversion Hbottom as [|v l Hv _]. lia.
Qed.

Open Scope string_scope.

(** ** Further properties of [EarDataset] *)

Lemma py_index_nat {A} (l : list A) i x :
  nth_error l i = Some x -> py_index l (Z.of_nat i) = Ok x.
Proof.
  intros H. assert (Hi : (i < List.length l)%nat) by (apply nth_error_Some; congruence).
  unfold py_index.
  replace ((0 <=? Z.of_nat i) && (Z.of_nat i <? Z.of_nat (List.length l)))%Z with true
    by (symmetry; apply andb_true_iff; split; [apply Z.leb_le|apply Z.ltb_lt]; lia).
  rewrite Nat2Z.id, H. reflexivity.
Qed.

Lemma py_index_out_of_range {A} (l : list A) i :
  (i < - Z.of_nat (List.length l) \/ Z.of_nat (List.length l) <= i)%Z ->
  py_index l i = Raise IndexError.
Proof.
  intros H. unfold py_index.
  replace ((0 <=? i) && (i <? Z.of_nat (List.length l)))%Z with false
    by (symmetry; apply andb_false_iff;
        destruct H; [left; apply Z.leb_gt|right; apply Z.ltb_ge]; lia).
  replace ((- Z.of_nat (List.length l) <=? i) && (i <? 0))%Z with false
    by (symmetry; apply andb_false_iff;
        destruct H; [left; apply Z.leb_gt|right; apply Z.ltb_ge]; lia).
  reflexivity.
Qed.

Lemma add_class_registers source class_id class_name s :
  Utils.contains "." source = false ->
  fst (Utils.add_class source class_id class_name s) = Ok tt /\
  image_info (snd (Utils.add_class source class_id class_name s)) = image_info s /\
  existsb (fun info => String.eqb (ci_source info) source && (ci_id info =? class_id)%Z)
          (class_info (snd (Utils.add_class source class_id class_name s))) = true.
Proof.
  intros Hdot. unfold Utils.add_class, assert_, lift. cbn. rewrite Hdot. cbn.
  destruct (existsb _ (class_info s)) eqn:E; cbn.
  - auto.
  - repeat split. rewrite existsb_app. cbn.
    rewrite String.eqb_refl, Z.eqb_refl. cbn. apply orb_true_r.
Qed.

Lemma load_ear_run fs dataset_dir subset s :
  subset = "train" \/ subset = "test" ->
  load_ear fs dataset_dir subset s =
    for_each (walk_files fs (join dataset_dir subset)) (fun filename =>
      img <- lift (imread fs (join (join dataset_dir subset) filename)) ;;
      hw <- lift (unpack2 (firstn 2 (shape img))) ;;
      let '(height, width) := hw in
      Utils.add_image "ear" (fst (splitext filename))
                      (join (join dataset_dir subset) filename)
                      width height
                      (join (join dataset_dir (subset ++ "annot")) filename))
      (snd (Utils.add_class "ear" 1 "ear" s)).
Proof.
  intros Hsubset.
  unfold load_ear, Utils.add_class, assert_, lift.
  cbn [bind Monad_M Utils.contains Ascii.eqb Bool.eqb orb negb].
  replace (existsb (String.eqb subset) ["train"; "test"]) with true
    by (destruct Hsubset; subst subset; reflexivity).
  destruct (existsb _ (class_info s)); reflexivity.
Qed.

Lemma load_ear_loop_fails fs dataset_dir subset pre sizes bad post e :
  Forall2 (fun filename hw =>
             exists img,
               imread fs (join (join dataset_dir subset) filename) = Ok img /\
               firstn 2 (shape img) = [fst hw; snd hw])
          pre sizes ->
  imread fs (join (join dataset_dir subset) bad) = Raise e ->
  forall s,
    for_each (pre ++ bad :: post) (fun filename =>
      img <- lift (imread fs (join (join dataset_dir subset) filename)) ;;
      hw <- lift (unpack2 (firstn 2 (shape img))) ;;
      let '(height, width) := hw in
      Utils.add_image "ear" (fst (splitext filename))
                      (join (join dataset_dir subset) filename)
                      width height
                      (join (join dataset_dir (subset ++ "annot")) filename)) s
    = (Raise e,
       {| class_info := class_info s;
          image_info := (image_info s ++
                        map (fun fhw => ear_record dataset_dir subset (fst fhw) (snd fhw))
                            (combine pre sizes))%list |}).
Proof.
  intros Hpre Hbad.
  induction Hpre as [|filename hw files sizes (img & Himg & Hshape) _ IH]; intros s.
  - cbn [app for_each bind Monad_M]. unfold lift at 1. rewrite Hbad.
    cbn. rewrite app_nil_r. destruct s; reflexivity.
  - cbn [app for_each]. cbn [bind Monad_M]. unfold lift at 1. rewrite Himg.
    unfold lift at 1. rewrite Hshape. cbn [unpack2].
    unfold Utils.add_image at 1. rewrite IH. cbn [class_info image_info combine map].
    rewrite <- app_assoc. destruct hw. reflexivity.
Qed.

(** X1: when a file of the images directory cannot be read, [load_ear] raises
    the error of [imread] and stops; the records of the files listed before
    it stay in the catalog and no later file is read. *)
Theorem load_ear_unreadable_image fs dataset_dir subset s pre sizes bad post e :
  subset = "train" \/ subset = "test" ->
  walk_files fs (join dataset_dir subset) = (pre ++ bad :: post)%list ->
  Forall2 (fun filename hw =>
             exists img,
               imread fs (join (join dataset_dir subset) filename) = Ok img /\
               firstn 2 (shape img) = [fst hw; snd hw])
          pre sizes ->
  imread fs (join (join dataset_dir subset) bad) = Raise e ->
  fst (load_ear fs dataset_dir subset s) = Raise e /\
  image_info (snd (load_ear fs dataset_dir subset s))
    = (image_info s ++
       map (fun fhw => ear_record dataset_dir subset (fst fhw) (snd fhw))
           (combine pre sizes))%list.
Proof.
  intros Hsubset Hfiles Hpre Hbad.
  rewrite (load_ear_run fs dataset_dir subset s Hsubset), Hfiles.
  rewrite (load_ear_loop_fails fs dataset_dir subset pre sizes bad post e Hpre Hbad).
  cbn [fst snd image_info].
  destruct (add_class_registers "ear" 1 "ear" s eq_refl) as (_ & Himg & _).
  rewrite Himg. split; reflexivity.
Qed.

Lemma load_ear_unreadable_image_witness :
  fst (load_ear Examples.fs_not_an_image "/data" "train" Utils.new_dataset) = Raise IOError /\
  image_info (snd (load_ear Examples.fs_not_an_image "/data" "train" Utils.new_dataset))
    = [ear_record "/data" "train" "a.png" (2, 2)]%nat.
Proof.
  apply (load_ear_unreadable_image Examples.fs_not_an_image "/data" "train"
           Utils.new_dataset ["a.png"] [(2, 2)%nat] "notes.txt" ["b.png"] IOError).
  - left. reflexivity.
  - reflexivity.
  - repeat constructor. eexists. split; reflexivity.
  - reflexivity.
Defined.

(** X2: a second [load_ear] of the same directory on the same object returns
    normally, leaves the class list as it is and appends the same records
    once more. *)
Theorem load_ear_twice_appends_again fs dataset_dir subset s sizes :
  subset = "train" \/ subset = "test" ->
  Forall2 (fun filename hw =>
             exists img,
               imread fs (join (join dataset_dir subset) filename) = Ok img /\
               firstn 2 (shape img) = [fst hw; snd hw])
          (walk_files fs (join dataset_dir subset)) sizes ->
  let records := map (fun fhw => ear_record dataset_dir subset (fst fhw) (snd fhw))
                     (combine (walk_files fs (join dataset_dir subset)) sizes) in
  let s1 := snd (load_ear fs dataset_dir subset s) in
  let s2 := snd (load_ear fs dataset_dir subset s1) in
  fst (load_ear fs dataset_dir subset s1) = Ok tt /\
  class_info s2 = class_info s1 /\
  image_info s2 = (image_info s ++ records ++ records)%list.
Proof.
  intros Hsubset Hread records s1 s2.
  assert (Hrun : forall s0,
            load_ear fs dataset_dir subset s0
            = (Ok tt,
               {| class_info := class_info (snd (Utils.add_class "ear" 1 "ear" s0));
                  image_info := (image_info s0 ++ records)%list |})).
  { intros s0. rewrite (load_ear_run fs dataset_dir subset s0 Hsubset).
    rewrite (load_ear_loop fs dataset_dir subset _ _ Hread).
    destruct (add_class_registers "ear" 1 "ear" s0 eq_refl) as (_ & Himg & _).
    rewrite Himg. reflexivity. }
  unfold s2. rewrite (Hrun s1). unfold s1. rewrite (Hrun s).
  cbn [fst snd class_info image_info]. split; [reflexivity|]. split.
  - destruct (add_class_registers "ear" 1 "ear" s eq_refl) as (_ & _ & Hreg).
    unfold Utils.add_class at 1, assert_, lift. cbn [bind Monad_M Utils.contains
      Ascii.eqb Bool.eqb orb negb class_info snd].
    rewrite Hreg. reflexivity.
  - rewrite app_assoc. reflexivity.
Qed.

Lemma load_ear_twice_appends_again_witness :
  map info_id
      (image_info (snd (load_ear Demo.fs "/data" "train" (Demo.loaded Demo.fs "/data" "train"))))
    = ["a"; "b"; "a"; "b"] /\
  class_info (snd (load_ear Demo.fs "/data" "train" (Demo.loaded Demo.fs "/data" "train")))
    = class_info (Demo.loaded Demo.fs "/data" "train").
Proof.
  destruct (load_ear_twice_appends_again Demo.fs "/data" "train" Utils.new_dataset
              [(2, 2); (1, 2)]%nat) as (_ & Hclass & Himages).
  - left. reflexivity.
  - vm_compute. repeat (constructor; try (eexists; split; reflexivity)).
  - split.
    + unfold Demo.loaded. rewrite Himages. reflexivity.
    + exact Hclass.
Defined.

(** X3: for a record whose source is not "ear", [load_mask] is the parent
    class's [load_mask]: same value or error, same state. *)
Theorem load_mask_foreign_delegates fs pc s image_id info :
  py_index (image_info s) image_id = Ok info ->
  info_source info <> "ear" ->
  load_mask fs pc image_id s = super_load_mask pc image_id s.
Proof.
  intros Hidx Hsrc. apply String.eqb_neq in Hsrc.
  unfold load_mask, get_image_info, lift. cbn.
  rewrite Hidx. cbn. rewrite Hsrc. reflexivity.
Qed.

Lemma load_mask_foreign_delegates_witness :
  load_mask Demo.fs Demo.parent_class 0 Demo.foreign
  = (Ok (Ndarray [0; 0; 0]%nat [], Ndarray [0]%nat []), Demo.foreign).
Proof.
  rewrite (load_mask_foreign_delegates Demo.fs Demo.parent_class Demo.foreign 0
             {| info_id := "42"; info_source := "coco"; info_path := "/coco/42.jpg";
                info_width := Some 2%nat; info_height := Some 2%nat;
                info_mask := Some "/coco/42.png" |});
    [reflexivity | reflexivity | discriminate].
Defined.

(** X4: for an image id below [-len(image_info)] or at least
    [len(image_info)], [load_mask] and [image_reference] raise IndexError
    and leave the object as it is. *)
Theorem image_id_out_of_range fs pc s image_id :
  (image_id < - Z.of_nat (List.length (image_info s)) \/
   Z.of_nat (List.length (image_info s)) <= image_id)%Z ->
  load_mask fs pc image_id s = (Raise IndexError, s) /\
  image_reference pc image_id s = (Raise IndexError, s).
Proof.
  intros H. apply py_index_out_of_range in H.
  unfold load_mask, image_reference, get_image_info, lift. cbn.
  rewrite H. split; reflexivity.
Qed.

Lemma image_id_out_of_range_witness :
  load_mask Demo.fs Demo.parent_class 2 (Demo.loaded Demo.fs "/data" "train")
    = (Raise IndexError, Demo.loaded Demo.fs "/data" "train") /\
  image_reference Demo.parent_class 2 (Demo.loaded Demo.fs "/data" "train")
    = (Raise IndexError, Demo.loaded Demo.fs "/data" "train").
Proof.
  apply (image_id_out_of_range Demo.fs Demo.parent_class
           (Demo.loaded Demo.fs "/data" "train") 2).
  right. vm_compute. discriminate.
Defined.

Lemma read_masks_fails fs parent pre arrs bad post e :
  Forall2 (fun file a => imread fs (join parent file) = Ok a) pre arrs ->
  imread fs (join parent bad) = Raise e ->
  read_masks fs parent (pre ++ bad :: post) = Raise e.
Proof.
  intros Hpre Hbad. induction Hpre as [|file a files arrs Hread _ IH]; cbn.
  - rewrite Hbad. reflexivity.
  - rewrite Hread. cbn in IH. rewrite IH. reflexivity.
Qed.

(** X5: when one of the matching mask files cannot be read, [load_mask] raises
    the error of [imread], whatever the files before it hold, and leaves
    the object as it is. *)
Theorem load_mask_unreadable_mask fs pc s image_id info m pre arrs bad post e :
  py_index (image_info s) image_id = Ok info ->
  info_source info = "ear" ->
  info_mask info = Some m ->
  glob fs (fst (splitext m) ++ "_?.*") = (pre ++ bad :: post)%list ->
  Forall2 (fun file a => imread fs (join (dirname m) file) = Ok a) pre arrs ->
  imread fs (join (dirname m) bad) = Raise e ->
  load_mask fs pc image_id s = (Raise e, s).
Proof.
  intros Hidx Hsrc Hmask Hglob Hpre Hbad.
  rewrite (load_mask_ear fs pc s image_id info m Hidx Hsrc Hmask), Hglob.
  rewrite (read_masks_fails fs _ pre arrs bad post e Hpre Hbad). reflexivity.
Qed.

Lemma load_mask_unreadable_mask_witness :
  load_mask Examples.fs_bad_mask Demo.parent_class 0
            (Demo.loaded Examples.fs_bad_mask "/data" "train")
  = (Raise IOError, Demo.loaded Examples.fs_bad_mask "/data" "train").
Proof.
  apply (load_mask_unreadable_mask Examples.fs_bad_mask Demo.parent_class
           (Demo.loaded Examples.fs_bad_mask "/data" "train") 0
           (ear_record "/data" "train" "a.png" (2, 2)%nat)
           "/data/trainannot/a.png"
           ["/data/trainannot/a_0.png"] [Ndarray [2; 2]%nat [255; 255; 0; 0]%Z]
           "/data/trainannot/a_1.png" [] IOError).
  - reflexivity.
  - reflexivity.
  - reflexivity.
  - reflexivity.
  - repeat constructor.
  - reflexivity.
Defined.

Lemma join_absolute a b : startswith "/" b = true -> join a b = b.
Proof. intros H. unfold join. rewrite H. reflexivity. Qed.

Lemma join_relative a b :
  startswith "/" b = false -> a <> "" -> endswith "/" a = false ->
  join a b = a ++ "/" ++ b.
Proof.
  intros Hb Ha Hend. apply String.eqb_neq in Ha.
  unfold join. rewrite Hb, Ha, Hend. reflexivity.
Qed.

(** X6: when the paths that [glob] returns are absolute, [load_mask] reads
    exactly those paths: it returns the stack of the files decoded, in the
    order of [glob], with as many class ids. *)
Theorem load_mask_absolute_results fs pc s image_id info m arrs sh :
  py_index (image_info s) image_id = Ok info ->
  info_source info = "ear" ->
  info_mask info = Some m ->
  Forall (fun file => startswith "/" file = true) (glob fs (fst (splitext m) ++ "_?.*")) ->
  Forall2 (fun file a => imread fs file = Ok a) (glob fs (fst (splitext m) ++ "_?.*")) arrs ->
  Forall (fun a => shape a = sh /\ well_formed a) arrs ->
  arrs <> [] ->
  exists mask,
    load_mask fs pc image_id s = (Ok (mask, Np.ones (List.length arrs)), s) /\
    shape mask = (sh ++ [List.length arrs])%list /\
    forall j a, nth_error arrs j = Some a -> instance_of j mask = astype_bool a.
Proof.
  intros Hidx Hsrc Hmask Habs Hread Hall Hne.
  rewrite (load_mask_ear fs pc s image_id info m Hidx Hsrc Hmask).
  assert (Hread' : Forall2 (fun file a => imread fs (join (dirname m) file) = Ok a)
                           (glob fs (fst (splitext m) ++ "_?.*")) arrs).
  { clear Hall Hne. induction Hread as [|file a files arrs Hr _ IH]; constructor.
    - inversion Habs as [|? ? Hf _]; subst. rewrite (join_absolute _ _ Hf). exact Hr.
    - apply IH. inversion Habs; assumption. }
  rewrite (read_masks_ok fs _ _ _ Hread').
  assert (Hall' : Forall (fun b => shape b = sh /\ well_formed b) (map astype_bool arrs)).
  { apply Forall_map. eapply Forall_impl; [|exact Hall]. cbn.
    intros a [Hs Hw]. split; [exact Hs|].
    unfold well_formed in *. cbn. rewrite length_map. exact Hw. }
  cbn [bind Monad_result].
  rewrite (stack_same_shape (map astype_bool arrs) sh).
  - rewrite length_map. eexists. split; [|split].
    + erewrite shape_last_snoc by reflexivity. reflexivity.
    + reflexivity.
    + intros j a Hj. rewrite <- (length_map astype_bool arrs).
      apply stack_instance; [exact Hall'|]. apply map_nth_error. exact Hj.
  - intros E. apply map_eq_nil in E. contradiction.
  - eapply Forall_impl; [|exact Hall']. cbn. tauto.
Qed.

Lemma load_mask_absolute_results_witness :
  exists mask,
    load_mask Demo.fs Demo.parent_class 0 (Demo.loaded Demo.fs "/data" "train")
      = (Ok (mask, Np.ones 2), Demo.loaded Demo.fs "/data" "train") /\
    instance_of 1 mask = Ndarray [2; 2]%nat [false; false; false; true].
Proof.
  destruct (load_mask_absolute_results Demo.fs Demo.parent_class
              (Demo.loaded Demo.fs "/data" "train") 0
              (ear_record "/data" "train" "a.png" (2, 2)%nat)
              "/data/trainannot/a.png"
              [Ndarray [2; 2]%nat [255; 255; 0; 0]%Z; Ndarray [2; 2]%nat [0; 0; 0; 255]%Z]
              [2; 2]%nat) as (mask & Hrun & _ & Hinst).
  - reflexivity.
  - reflexivity.
  - reflexivity.
  - vm_compute. repeat constructor.
  - vm_compute. repeat constructor.
  - repeat constructor.
  - discriminate.
  - exists mask. split; [exact Hrun|].
    rewrite (Hinst 1%nat (Ndarray [2; 2]%nat [0; 0; 0; 255]%Z) eq_refl). reflexivity.
Defined.

(** X7: when the first path that [glob] returns is relative, [load_mask]
    reads it under the directory of the mask path, [parent/file], and fails
    with the error of [imread] on that path. *)
Theorem load_mask_relative_results fs pc s image_id info m file files e :
  py_index (image_info s) image_id = Ok info ->
  info_source info = "ear" ->
  info_mask info = Some m ->
  glob fs (fst (splitext m) ++ "_?.*") = file :: files ->
  startswith "/" file = false ->
  dirname m <> "" ->
  endswith "/" (dirname m) = false ->
  imread fs (dirname m ++ "/" ++ file) = Raise e ->
  load_mask fs pc image_id s = (Raise e, s).
Proof.
  intros Hidx Hsrc Hmask Hglob Hrel Hdir Hend Hbad.
  rewrite (load_mask_ear fs pc s image_id info m Hidx Hsrc Hmask), Hglob.
  cbn [read_masks]. rewrite (join_relative _ _ Hrel Hdir Hend), Hbad. reflexivity.
Qed.

Lemma load_mask_relative_results_witness :
  glob Examples.fs_relative "data/trainannot/a_?.*" = ["data/trainannot/a_0.png"] /\
  imread Examples.fs_relative "data/trainannot/a_0.png"
    = Ok (Ndarray [2; 2]%nat [255; 255; 0; 0]%Z) /\
  load_mask Examples.fs_relative Demo.parent_class 0
            (Demo.loaded Examples.fs_relative "data" "train")
    = (Raise IOError, Demo.loaded Examples.fs_relative "data" "train").
Proof.
  split; [reflexivity|]. split; [reflexivity|].
  apply (load_mask_relative_results Examples.fs_relative Demo.parent_class
           (Demo.loaded Examples.fs_relative "data" "train") 0
           (ear_record "data" "train" "a.png" (2, 2)%nat)
           "data/trainannot/a.png" "data/trainannot/a_0.png" [] IOError).
  - reflexivity.
  - reflexivity.
  - reflexivity.
  - reflexivity.
  - reflexivity.
  - discriminate.
  - reflexivity.
  - reflexivity.
Defined.

(** X8: after [load_ear], [image_reference] of the [i]-th record added is
    the path of the [i]-th file of the listing, joined to the images
    directory. *)
Theorem image_reference_after_load_ear fs pc dataset_dir subset s sizes i :
  subset = "train" \/ subset = "test" ->
  Forall2 (fun filename hw =>
             exists img,
               imread fs (join (join dataset_dir subset) filename) = Ok img /\
               firstn 2 (shape img) = [fst hw; snd hw])
          (walk_files fs (join dataset_dir subset)) sizes ->
  (i < List.length (walk_files fs (join dataset_dir subset)))%nat ->
  let s' := snd (load_ear fs dataset_dir subset s) in
  image_reference pc (Z.of_nat (List.length (image_info s) + i)) s'
  = (Ok (Some (join (join dataset_dir subset)
                    (nth i (walk_files fs (join dataset_dir subset)) ""))), s').
Proof.
  intros Hsubset Hread Hi s'.
  assert (Hlen : List.length sizes = List.length (walk_files fs (join dataset_dir subset)))
    by (symmetry; eapply Forall2_length; exact Hread).
  assert (Himg : image_info s'
                 = (image_info s ++
                    map (fun fhw => ear_record dataset_dir subset (fst fhw) (snd fhw))
                        (combine (walk_files fs (join dataset_dir subset)) sizes))%list).
  { unfold s'. rewrite (load_ear_run fs dataset_dir subset s Hsubset).
    rewrite (load_ear_loop fs dataset_dir subset _ _ Hread). cbn [snd image_info].
    destruct (add_class_registers "ear" 1 "ear" s eq_refl) as (_ & H & _).
    rewrite H. reflexivity. }
  unfold image_reference, get_image_info, lift. cbn [bind Monad_M].
  rewrite Himg.
  rewrite (py_index_nat _ _
             (ear_record dataset_dir subset
                (nth i (walk_files fs (join dataset_dir subset)) "")
                (nth i sizes (0, 0)%nat))).
  - reflexivity.
  - rewrite nth_error_app2 by lia.
    replace (List.length (image_info s) + i - List.length (image_info s))%nat with i by lia.
    apply (map_nth_error
             (fun fhw => ear_record dataset_dir subset (fst fhw) (snd fhw)) i
             (combine (walk_files fs (join dataset_dir subset)) sizes)
             (d := (nth i (walk_files fs (join dataset_dir subset)) "",
                    nth i sizes (0, 0)%nat))).
    rewrite <- (combine_nth _ _ i "" (0, 0)%nat) by lia.
    apply nth_error_nth'. rewrite length_combine. lia.
Qed.

Lemma image_reference_after_load_ear_witness :
  image_reference Demo.parent_class 1 (Demo.loaded Demo.fs "/data" "train")
  = (Ok (Some "/data/train/b.png"), Demo.loaded Demo.fs "/data" "train").
Proof.
  apply (image_reference_after_load_ear Demo.fs Demo.parent_class "/data" "train"
           Utils.new_dataset [(2, 2); (1, 2)]%nat 1).
  - left. reflexivity.
  - vm_compute. repeat (constructor; try (eexists; split; reflexivity)).
  - vm_compute. lia.
Defined.

Close Scope string_scope.

(** ** Further properties of [color_splash] *)





(** The float64 image [gray] of [color_splash], pixel by pixel. *)
Lemma gray_float_data s (L : nat -> Q) :
  data (mul_scalar (Skimage.gray2rgb (Ndarray s (map L (seq 0 (size s))))) 255)
  = flat_map (fun i => [L i * 255; L i * 255; L i * 255]%Q) (seq 0 (size s)).
Proof.
  unfold mul_scalar, Skimage.gray2rgb. cbn [shape data].
  rewrite flat_map_map, map_flat_map. reflexivity.
Qed.

(** [color_splash] for an image of shape [s ++ [3]] and a stack of shape
    [s ++ [n]] with [n >= 1]: the element at position [p] is taken from
    the image or from [gray] according to the union at pixel [p / 3]. *)
Lemma color_splash_elements image mask s n :
  shape image = (s ++ [3])%list ->
  shape mask = (s ++ [n])%list ->
  0 < n ->
  exists gray,
    (g <- Skimage.rgb2gray image ;; Ok (mul_scalar (Skimage.gray2rgb g) 255)) = Ok gray /\
    shape gray = (s ++ [3])%list /\
    color_splash image mask =
      Ok (Ndarray (s ++ [3])
            (map (fun p =>
                    (truncate (if existsb (fun b => b) (lane n (p / 3) (data mask))
                               then nth p (map inject_Z (data image)) 0%Q
                               else nth p (data gray) 0%Q) mod 256)%Z)
                 (seq 0 (size s * 3)))).
Proof.
  intros Himg Hmask Hn.
  rewrite (color_splash_nonempty image mask s n Hmask Hn).
  rewrite (rgb2gray_shape image s Himg). cbn [bind Monad_result].
  eexists. split; [reflexivity|]. split; [reflexivity|].
  rewrite (union_mask_eq mask s n Hmask).
  unfold where_, shape_last, shape_init, astype_float.
  unfold mul_scalar at 1 2 3, Skimage.gray2rgb at 1 2 3.
  cbn [shape data]. rewrite Himg, !rev_app_distr, !removelast_last. cbn [rev app].
  rewrite !shape_eqb_refl. cbn [andb Nat.eqb bind Monad_result].
  unfold astype_uint8. cbn [shape data]. rewrite map_map, size_snoc.
  do 2 f_equal. apply map_ext_in. intros p Hp. apply in_seq in Hp.
  assert (Hq : p / 3 < size s) by (apply Nat.Div0.div_lt_upper_bound; lia).
  rewrite nth_map_seq by exact Hq. reflexivity.
Qed.

(** X9: for an image of shape [s ++ [3]] and a mask stack of shape
    [s ++ [n]], with any number of instances, [color_splash] returns an
    image of the shape of the input whose values are in 0..255. *)
Theorem color_splash_returns_uint8_image image mask s n :
  shape image = (s ++ [3])%list ->
  shape mask = (s ++ [n])%list ->
  exists out,
    color_splash image mask = Ok out /\
    shape out = shape image /\
    well_formed out /\
    uint8 out.
Proof.
  intros Himg Hmask.
  assert (Hrange : forall (f : nat -> Q) l,
            Forall (fun v => (0 <= v <= 255)%Z) (map (fun p => (truncate (f p) mod 256)%Z) l)).
  { intros f l. apply Forall_map, Forall_forall. intros p _.
    pose proof (Z.mod_pos_bound (truncate (f p)) 256). lia. }
  destruct n as [|n].
  - unfold color_splash. rewrite (rgb2gray_shape image s Himg). cbn [bind Monad_result].
    rewrite (shape_last_snoc mask s 0 Hmask). cbn [bind Monad_result Nat.ltb Nat.leb].
    eexists. split; [reflexivity|]. split; [cbn; symmetry; exact Himg|]. split.
    + unfold well_formed. rewrite gray_data.
      unfold astype_uint8, mul_scalar, Skimage.gray2rgb. cbn [shape].
      rewrite (length_flat_map_const _ 3) by reflexivity.
      rewrite length_seq, size_snoc. reflexivity.
    + unfold uint8, astype_uint8. cbn [data].
      apply Forall_map, Forall_forall. intros q _.
      pose proof (Z.mod_pos_bound (truncate q) 256). lia.
  - destruct (color_splash_elements image mask s (S n) Himg Hmask (Nat.lt_0_succ n))
      as (gray & _ & _ & Hrun).
    eexists. split; [exact Hrun|]. split; [cbn; symmetry; exact Himg|]. split.
    + unfold well_formed. cbn [shape data]. rewrite length_map, length_seq, size_snoc.
      reflexivity.
    + unfold uint8. cbn [data]. apply Hrange.
Qed.

Lemma color_splash_returns_uint8_image_witness :
  exists out,
    color_splash Demo.red Demo.two_instances = Ok out /\
    shape out = [2; 2; 3] /\ well_formed out /\ uint8 out.
Proof.
  apply (color_splash_returns_uint8_image Demo.red Demo.two_instances [2; 2] 2);
    reflexivity.
Defined.



Lemma existsb_lane_all_false n i d :
  Forall (fun b => b = false) d -> existsb (fun b => b) (lane n i d) = false.
Proof.
  intros Hall. destruct (existsb (fun b => b) (lane n i d)) eqn:E; [|reflexivity].
  apply existsb_exists in E. destruct E as (b & Hin & Hb). subst b.
  apply lane_incl in Hin. rewrite Forall_forall in Hall.
  exact (Hall true Hin).
Qed.

(** X11: a stack whose instances cover no pixel gives the same image as a
    stack of no instance. *)
Theorem color_splash_empty_instances image mask empty s n :
  shape image = (s ++ [3])%list ->
  shape mask = (s ++ [n])%list ->
  Forall (fun b => b = false) (data mask) ->
  shape_last empty = Ok 0 ->
  color_splash image mask = color_splash image empty.
Proof.
  intros Himg Hmask Hfalse Hempty.
  assert (Hgray : color_splash image empty
                  = (g <- Skimage.rgb2gray image ;;
                     Ok (astype_uint8 (mul_scalar (Skimage.gray2rgb g) 255)))).
  { unfold color_splash. destruct (Skimage.rgb2gray image); [|reflexivity].
    cbn [bind Monad_result]. rewrite Hempty. reflexivity. }
  destruct n as [|n].
  - rewrite Hgray. unfold color_splash.
    destruct (Skimage.rgb2gray image); [|reflexivity].
    cbn [bind Monad_result]. rewrite (shape_last_snoc mask s 0 Hmask). reflexivity.
  - destruct (color_splash_elements image mask s (S n) Himg Hmask (Nat.lt_0_succ n))
      as (gray & Hg & Hgshape & Hrun).
    rewrite Hrun, Hgray. rewrite (rgb2gray_shape image s Himg) in Hg |- *.
    cbn [bind Monad_result] in Hg |- *. injection Hg as <-.
    unfold astype_uint8. f_equal.
    set (gray := mul_scalar _ 255).
    assert (Hglen : List.length (data gray) = size s * 3).
    { unfold gray. rewrite gray_float_data, (length_flat_map_const _ 3) by reflexivity.
      rewrite length_seq. reflexivity. }
    f_equal.
    transitivity (map (fun q => (truncate q mod 256)%Z)
                      (map (fun p => nth p (data gray) 0%Q) (seq 0 (size s * 3))));
      [|rewrite <- Hglen, map_nth_seq; reflexivity].
    rewrite map_map.
    apply map_ext. intros p. rewrite (existsb_lane_all_false _ _ _ Hfalse). reflexivity.
Qed.

Lemma color_splash_empty_instances_witness :
  color_splash Demo.red Examples.two_empty_instances
  = color_splash Demo.red Demo.no_instance.
Proof.
  apply (color_splash_empty_instances Demo.red Examples.two_empty_instances
           Demo.no_instance [2; 2] 2).
  - reflexivity.
  - reflexivity.
  - repeat constructor.
  - reflexivity.
Defined.

(** ** Properties of the script *)

Open Scope string_scope.

(** X12: without an image path [detect] never returns: with a video path it
    prints that video is not supported and then raises UnboundLocalError
    at the last [print], which reads [file_name]; with neither path its
    assertion fails. *)
Theorem detect_without_image fs fw args image_path video_path :
  truthy image_path = false ->
  detect fs fw args image_path video_path
  = if truthy video_path
    then ([Print "Video option not supported"], Raises UnboundLocalError)
    else ([], Raises (Lib AssertionError)).
Proof.
  intros Himage. unfold detect. rewrite Himage.
  destruct (truthy video_path); reflexivity.
Qed.

Lemma detect_without_image_witness :
  detect Examples.fs_red Examples.framework Examples.evaluate_video
         None (Some "/in/clip.mp4")
    = ([Print "Video option not supported"], Raises UnboundLocalError) /\
  detect Examples.fs_red Examples.framework Examples.evaluate_video (Some "") None
    = ([], Raises (Lib AssertionError)).
Proof.
  split.
  - apply (detect_without_image Examples.fs_red Examples.framework
             Examples.evaluate_video None (Some "/in/clip.mp4")). reflexivity.
  - apply (detect_without_image Examples.fs_red Examples.framework
             Examples.evaluate_video (Some "") None). reflexivity.
Defined.

(** X13: with an image path, [detect] reads the file named by [args.image]
    (not by its argument), runs the detection, saves the colour splash of
    the image and the detected masks under splash_<time>.png and prints
    that name. *)
Theorem detect_image fs fw args image_path video_path path img splash :
  truthy image_path = true ->
  image args = Some path ->
  imread fs path = Ok img ->
  color_splash img (detect_masks fw img) = Ok splash ->
  detect fs fw args image_path video_path
  = ([Print ("Running on " ++ path);
      ModelDetect img;
      Imsave ("splash_" ++ now fw ++ ".png") splash;
      Print ("Save to  splash_" ++ now fw ++ ".png")],
     Returns tt).
Proof.
  intros Htruthy Hargs Hread Hsplash. unfold detect, imread_arg, print, emit.
  rewrite Htruthy, Hargs, Hread. cbn [orb assert_io lib bind Monad_IO ret str app].
  rewrite Hsplash. reflexivity.
Qed.

Lemma detect_image_witness :
  detect Examples.fs_red Examples.framework Examples.evaluate_image
         (Some "/elsewhere.png") None
  = ([Print "Running on /in/red.png";
      ModelDetect Demo.red;
      Imsave "splash_20190101T120000.png"
             (Ndarray [2; 2; 3]%nat [255; 0; 0; 255; 0; 0; 54; 54; 54; 54; 54; 54]%Z);
      Print "Save to  splash_20190101T120000.png"],
     Returns tt).
Proof.
  apply (detect_image Examples.fs_red Examples.framework Examples.evaluate_image
           (Some "/elsewhere.png") None "/in/red.png" Demo.red
           (Ndarray [2; 2; 3]%nat [255; 0; 0; 255; 0; 0; 54; 54; 54; 54; 54; 54]%Z));
    reflexivity.
Defined.

(** X14: whatever its arguments, the only file that [detect] writes is
    splash_<time>.png, holding the colour splash of the image read from
    [args.image]. *)
Theorem detect_saves_only_the_splash fs fw args image_path video_path file_name saved :
  In (Imsave file_name saved) (fst (detect fs fw args image_path video_path)) ->
  file_name = "splash_" ++ now fw ++ ".png" /\
  truthy image_path = true /\
  exists path img,
    image args = Some path /\
    imread fs path = Ok img /\
    color_splash img (detect_masks fw img) = Ok saved.
Proof.
  unfold detect, imread_arg, print, emit.
  destruct (truthy image_path) eqn:Hi; cbn [orb assert_io bind Monad_IO ret app fst].
  - destruct (image args) as [path|] eqn:Hargs;
      cbn [lib raises bind Monad_IO ret app fst str].
    + destruct (imread fs path) as [img|e] eqn:Hread;
        cbn [lib raises bind Monad_IO ret app fst].
      * destruct (color_splash img (detect_masks fw img)) as [splash|e] eqn:Hs;
          cbn [lib raises bind Monad_IO ret app fst In].
        -- intros [H|[H|[H|[H|[]]]]]; try discriminate.
           injection H as <- <-. split; [reflexivity|]. split; [reflexivity|].
           exists path, img. auto.
        -- intros [H|[H|[]]]; discriminate.
      * intros [H|[]]; discriminate.
    + intros [H|[]]; discriminate.
  - destruct (truthy video_path); cbn [bind Monad_IO ret raises app fst In].
    + intros [H|[]]; discriminate.
    + intros [].
Qed.

Lemma detect_saves_only_the_splash_witness :
  "splash_20190101T120000.png" = "splash_" ++ now Examples.framework ++ ".png" /\
  exists path img,
    image Examples.evaluate_image = Some path /\
    imread Examples.fs_red path = Ok img /\
    color_splash img (detect_masks Examples.framework img)
      = Ok (Ndarray [2; 2; 3]%nat [255; 0; 0; 255; 0; 0; 54; 54; 54; 54; 54; 54]%Z).
Proof.
  destruct (detect_saves_only_the_splash Examples.fs_red Examples.framework
              Examples.evaluate_image (Some "/in/red.png") None
              "splash_20190101T120000.png"
              (Ndarray [2; 2; 3]%nat [255; 0; 0; 255; 0; 0; 54; 54; 54; 54; 54; 54]%Z))
    as (Hname & _ & Hrest).
  - vm_compute. tauto.
  - split; [exact Hname | exact Hrest].
Defined.

(** X15: the command train without a dataset, and the command evaluate
    without an image and a video, fail at the assertion before anything is
    printed or built. *)
Theorem main_rejects_missing_arguments fs fw args :
  (command args = "train" /\ truthy (dataset args) = false) \/
  (command args = "evaluate" /\ truthy (image args) = false /\ truthy (video args) = false) ->
  main fs fw args = ([], Raises (Lib AssertionError)).
Proof.
  intros [[Hc Hd]|[Hc [Hi Hv]]]; unfold main, validate_arguments; rewrite Hc.
  - cbn [String.eqb Ascii.eqb Bool.eqb]. rewrite Hd. reflexivity.
  - cbn [String.eqb Ascii.eqb Bool.eqb]. rewrite Hi, Hv. reflexivity.
Qed.

Lemma main_rejects_missing_arguments_witness :
  main Examples.fs_red Examples.framework Examples.train_without_dataset
  = ([], Raises (Lib AssertionError)).
Proof.
  apply (main_rejects_missing_arguments Examples.fs_red Examples.framework
           Examples.train_without_dataset).
  left. split; reflexivity.
Defined.

Lemma select_weights_run fw args :
  snd (select_weights fw args) = Returns (selected_weights fw args) /\
  Forall (fun ev => is_load_weights ev = false /\ is_model_work ev = false)
         (fst (select_weights fw args)).
Proof.
  unfold select_weights, selected_weights.
  destruct (String.eqb (lower (weights args)) "coco").
  - destruct (path_exists fw (COCO_WEIGHTS_PATH fw)); cbn; split;
      repeat constructor.
  - destruct (String.eqb (lower (weights args)) "last"); [cbn; split; repeat constructor|].
    destruct (String.eqb (lower (weights args)) "imagenet"); cbn; split;
      repeat constructor.
Qed.

Lemma main_run fs fw args :
  snd (validate_arguments args) = Returns tt ->
  fst (main fs fw args)
    = ([Print ("Weights:  " ++ weights args);
        Print ("Dataset:  " ++ str (dataset args));
        Print ("Logs:  " ++ logs args);
        ConfigDisplay (if String.eqb (command args) "train" then EarConfig else InferenceConfig);
        MaskRCNN (if String.eqb (command args) "train" then training else inference)
                 (if String.eqb (command args) "train" then EarConfig else InferenceConfig)
                 (logs args)]
       ++ fst (select_weights fw args)
       ++ [Print ("Loading weights  " ++ selected_weights fw args);
           LoadWeights (selected_weights fw args)
                       (if String.eqb (lower (weights args)) "coco"
                        then coco_exclude else [])]
       ++ fst (train_or_evaluate fs fw args))%list /\
  snd (main fs fw args) = snd (train_or_evaluate fs fw args).
Proof.
  intros Hvalid. unfold main.
  assert (Hv : validate_arguments args = ([], Returns tt)).
  { unfold validate_arguments, assert_io in *.
    destruct (String.eqb (command args) "train").
    - destruct (truthy (dataset args)); [reflexivity|discriminate].
    - destruct (String.eqb (command args) "evaluate"); [|reflexivity].
      destruct (truthy (image args) || truthy (video args)); [reflexivity|discriminate]. }
  rewrite Hv.
  destruct (select_weights_run fw args) as [Hs _].
  destruct (select_weights fw args) as [tw ow]. cbn [snd fst] in Hs |- *. subst ow.
  destruct (train_or_evaluate fs fw args) as [td od].
  unfold print, emit. cbn [bind Monad_IO ret String.concat app fst snd].
  destruct (String.eqb (lower (weights args)) "coco");
    cbn [bind Monad_IO ret app fst snd]; split; reflexivity.
Qed.

Lemma train_events fs fw args :
  Forall (fun ev => is_load_weights ev = false) (fst (train fs fw args)).
Proof.
  unfold train, prepared_dataset, call, print, emit.
  destruct (dataset args) as [d|]; [|constructor].
  cbn [bind Monad_IO Monad_M].
  destruct (load_ear fs d "train" Utils.new_dataset) as [[[]|e] s1]; [|constructor].
  destruct (prepare fw s1) as [[[]|e] s1']; [|constructor].
  cbn [bind Monad_IO ret raises app fst snd].
  destruct (load_ear fs d "test" Utils.new_dataset) as [[[]|e] s2]; [|constructor].
  destruct (prepare fw s2) as [[[]|e] s2']; [|constructor].
  cbn. repeat constructor.
Qed.

Lemma detect_events fs fw args image_path video_path :
  Forall (fun ev => is_load_weights ev = false)
         (fst (detect fs fw args image_path video_path)).
Proof.
  unfold detect, imread_arg, print, emit.
  destruct (truthy image_path); cbn [orb assert_io bind Monad_IO ret app fst].
  - destruct (image args) as [path|]; cbn [lib raises bind Monad_IO ret app fst str];
      [|repeat constructor].
    destruct (imread fs path) as [img|e]; cbn [lib raises bind Monad_IO ret app fst];
      [|repeat constructor].
    destruct (color_splash img (detect_masks fw img));
      cbn [lib raises bind Monad_IO ret app fst]; repeat constructor.
  - destruct (truthy video_path); cbn; repeat constructor.
Qed.

Lemma filter_none {A} (f : A -> bool) l :
  Forall (fun x => f x = false) l -> filter f l = [].
Proof.
  induction 1 as [|x l Hx _ IH]; cbn; [reflexivity|]. rewrite Hx. exact IH.
Qed.

(** X16: when the arguments are valid the script loads weights exactly once:
    the path is chosen by the lower-cased argument (coco, last, imagenet)
    or is the argument as typed, and layers are excluded for coco only. *)
Theorem main_loads_weights_once fs fw args :
  snd (validate_arguments args) = Returns tt ->
  filter is_load_weights (fst (main fs fw args))
  = [LoadWeights (selected_weights fw args)
                 (if String.eqb (lower (weights args)) "coco" then coco_exclude else [])].
Proof.
  intros Hvalid. destruct (main_run fs fw args Hvalid) as [Htrace _].
  rewrite Htrace. cbn [app filter is_load_weights].
  rewrite !filter_app. cbn [filter is_load_weights].
  rewrite (filter_none is_load_weights (fst (select_weights fw args))).
  - rewrite (filter_none is_load_weights (fst (train_or_evaluate fs fw args))); [reflexivity|].
    unfold train_or_evaluate.
    destruct (String.eqb (command args) "train"); [apply train_events|].
    destruct (String.eqb (command args) "evaluate"); [apply detect_events|].
    repeat constructor.
  - destruct (select_weights_run fw args) as [_ H].
    eapply Forall_impl; [|exact H]. cbn. tauto.
Qed.

Lemma main_loads_weights_once_witness :
  filter is_load_weights
         (fst (main Examples.fs_red Examples.framework Examples.splash_command))
    = [LoadWeights "/w/Ears.h5" []] /\
  filter is_load_weights
         (fst (main Examples.fs_red Examples.framework Examples.evaluate_image))
    = [LoadWeights "/repo/mask_rcnn_balloon.h5" coco_exclude].
Proof.
  split.
  - apply (main_loads_weights_once Examples.fs_red Examples.framework
             Examples.splash_command). reflexivity.
  - apply (main_loads_weights_once Examples.fs_red Examples.framework
             Examples.evaluate_image). reflexivity.
Defined.

(** X17: for a command other than train and evaluate the script still builds
    the inference model and loads the weights, then prints that the
    command is not recognized and returns; it never trains, detects or
    writes an image. *)
Theorem main_unknown_command fs fw args :
  command args <> "train" ->
  command args <> "evaluate" ->
  exists t,
    main fs fw args
      = ((t ++ [Print ("'" ++ command args ++ "' is not recognized. Use 'train' or 'splash'")])%list,
         Returns tt) /\
    In (MaskRCNN inference InferenceConfig (logs args)) t /\
    In (LoadWeights (selected_weights fw args)
                    (if String.eqb (lower (weights args)) "coco" then coco_exclude else [])) t /\
    Forall (fun ev => is_model_work ev = false) t.
Proof.
  intros Htrain Heval.
  apply String.eqb_neq in Htrain. apply String.eqb_neq in Heval.
  assert (Hvalid : snd (validate_arguments args) = Returns tt).
  { unfold validate_arguments. rewrite Htrain, Heval. reflexivity. }
  destruct (main_run fs fw args Hvalid) as [Htrace Hout].
  unfold train_or_evaluate in Htrace, Hout. rewrite Htrain, Heval in Htrace, Hout.
  destruct (main fs fw args) as [t o]. cbn [fst snd] in Htrace, Hout. subst t o.
  unfold print, emit. cbn [String.concat fst snd].
  eexists. split; [|split; [|split]].
  - rewrite !app_assoc. reflexivity.
  - apply in_or_app. left. apply in_or_app. left. cbn. tauto.
  - apply in_or_app. right. cbn. tauto.
  - destruct (select_weights_run fw args) as [_ H].
    repeat (apply Forall_app; split); repeat constructor.
    eapply Forall_impl; [|exact H]. cbn. tauto.
Qed.

Lemma main_unknown_command_witness :
  exists t,
    main Examples.fs_red Examples.framework Examples.splash_command
      = ((t ++ [Print "'splash' is not recognized. Use 'train' or 'splash'"])%list,
         Returns tt) /\
    Forall (fun ev => is_model_work ev = false) t.
Proof.
  destruct (main_unknown_command Examples.fs_red Examples.framework
              Examples.splash_command) as (t & Hrun & _ & _ & Hwork).
  - discriminate.
  - discriminate.
  - exists t. split; [exact Hrun | exact Hwork].
Defined.

(** X18: the command evaluate with a video and no image passes the
    validation, loads the weights, prints that video is not supported and
    ends in UnboundLocalError, without any detection. *)
Theorem main_evaluate_video_only fs fw args :
  command args = "evaluate" ->
  truthy (image args) = false ->
  truthy (video args) = true ->
  exists t,
    main fs fw args
      = ((t ++ [Print "Video option not supported"])%list, Raises UnboundLocalError) /\
    In (LoadWeights (selected_weights fw args)
                    (if String.eqb (lower (weights args)) "coco" then coco_exclude else [])) t /\
    Forall (fun ev => is_model_work ev = false) t.
Proof.
  intros Hc Hi Hv.
  assert (Hvalid : snd (validate_arguments args) = Returns tt).
  { unfold validate_arguments. rewrite Hc. cbn [String.eqb Ascii.eqb Bool.eqb].
    rewrite Hi, Hv. reflexivity. }
  destruct (main_run fs fw args Hvalid) as [Htrace Hout].
  unfold train_or_evaluate in Htrace, Hout. rewrite Hc in Htrace, Hout.
  cbn [String.eqb Ascii.eqb Bool.eqb] in Htrace, Hout.
  rewrite (detect_without_image fs fw args _ _ Hi), Hv in Htrace, Hout.
  destruct (main fs fw args) as [t o]. cbn [fst snd] in Htrace, Hout. subst t o.
  eexists. split; [|split].
  - rewrite !app_assoc. reflexivity.
  - apply in_or_app. right. cbn. tauto.
  - destruct (select_weights_run fw args) as [_ H].
    repeat (apply Forall_app; split); repeat constructor.
    eapply Forall_impl; [|exact H]. cbn. tauto.
Qed.

Lemma main_evaluate_video_only_witness :
  snd (main Examples.fs_red Examples.framework Examples.evaluate_video)
  = Raises UnboundLocalError.
Proof.
  destruct (main_evaluate_video_only Examples.fs_red Examples.framework
              Examples.evaluate_video) as (t & Hrun & _);
    [reflexivity | reflexivity | reflexivity |].
  rewrite Hrun. reflexivity.
Defined.

(** X19: [train] calls [model.train] only after [load_ear] and [prepare] have
    returned for both the train and the test subset, each on a new
    object, and then with 30 epochs on the heads. *)
Theorem train_calls_model_after_both_subsets fs fw args dataset_train dataset_val epochs layers :
  In (ModelTrain dataset_train dataset_val epochs layers) (fst (train fs fw args)) ->
  epochs = 30%nat /\ layers = "heads" /\
  snd (train fs fw args) = Returns tt /\
  exists dataset_dir,
    dataset args = Some dataset_dir /\
    (load_ear fs dataset_dir "train" ;; prepare fw) Utils.new_dataset = (Ok tt, dataset_train) /\
    (load_ear fs dataset_dir "test" ;; prepare fw) Utils.new_dataset = (Ok tt, dataset_val).
Proof.
  unfold train, prepared_dataset, call, print, emit.
  destruct (dataset args) as [d|]; [|intros []].
  destruct ((load_ear fs d "train" ;; prepare fw) Utils.new_dataset) as [[[]|e] s1] eqn:E1;
    cbn [bind Monad_IO ret raises app fst snd]; [|intros []].
  destruct ((load_ear fs d "test" ;; prepare fw) Utils.new_dataset) as [[[]|e] s2] eqn:E2;
    cbn [bind Monad_IO ret raises app fst snd]; [|intros []].
  intros [H|[H|[]]]; [discriminate|].
  injection H as <- <- <- <-.
  split; [reflexivity|]. split; [reflexivity|]. split; [reflexivity|].
  exists d. split; [reflexivity|]. split; assumption.
Qed.

Lemma train_calls_model_after_both_subsets_witness :
  exists dataset_dir,
    dataset Examples.train_command = Some dataset_dir /\
    (load_ear Demo.fs dataset_dir "train" ;; prepare Examples.framework) Utils.new_dataset
      = (Ok tt, Demo.loaded Demo.fs "/data" "train") /\
    (load_ear Demo.fs dataset_dir "test" ;; prepare Examples.framework) Utils.new_dataset
      = (Ok tt, Demo.loaded Demo.fs "/data" "test").
Proof.
  destruct (train_calls_model_after_both_subsets Demo.fs Examples.framework
              Examples.train_command
              (Demo.loaded Demo.fs "/data" "train") (Demo.loaded Demo.fs "/data" "test")
              30 "heads") as (_ & _ & _ & H).
  - vm_compute. tauto.
  - exact H.
Defined.

(** ** The class list *)

(** The loop of [load_ear] leaves the class list as it is, whether it
    ends or fails. *)
Lemma load_ear_loop_class_info fs dataset_dir subset files :
  forall s,
    class_info
      (snd (for_each files (fun filename =>
              img <- lift (imread fs (join (join dataset_dir subset) filename)) ;;
              hw <- lift (unpack2 (firstn 2 (shape img))) ;;
              let '(height, width) := hw in
              Utils.add_image "ear" (fst (splitext filename))
                              (join (join dataset_dir subset) filename)
                              width height
                              (join (join dataset_dir (subset ++ "annot")) filename)) s))
    = class_info s.
Proof.
  induction files as [|filename files IH]; intros s.
  - reflexivity.
  - cbn [for_each bind Monad_M]. unfold lift at 1.
    destruct (imread fs _) as [img|e]; [|reflexivity].
    unfold lift at 1. destruct (unpack2 _) as [[height width]|e]; [|reflexivity].
    unfold Utils.add_image at 1. cbv beta iota. rewrite IH. reflexivity.
Qed.

(** X20: whatever the directory holds and whatever the subset name, after
    [load_ear] on a new object the class list is the background class and
    the ear class of id 1, as many as [NUM_CLASSES] of [EarConfig]. *)
Theorem load_ear_class_list fs dataset_dir subset :
  class_info (snd (load_ear fs dataset_dir subset Utils.new_dataset))
    = [ {| ci_source := ""; ci_id := 0; ci_name := "BG" |};
        {| ci_source := "ear"; ci_id := 1; ci_name := "ear" |} ] /\
  Z.of_nat (List.length (class_info (snd (load_ear fs dataset_dir subset Utils.new_dataset))))
    = NUM_CLASSES EarConfig.
Proof.
  assert (H : class_info (snd (load_ear fs dataset_dir subset Utils.new_dataset))
              = [ {| ci_source := ""; ci_id := 0; ci_name := "BG" |};
                  {| ci_source := "ear"; ci_id := 1; ci_name := "ear" |} ]).
  { destruct (existsb (String.eqb subset) ["train"; "test"]) eqn:E.
    - assert (Hs : subset = "train" \/ subset = "test").
      { cbn in E. apply orb_true_iff in E. destruct E as [E|E].
        - left. apply String.eqb_eq. exact E.
        - right. rewrite orb_false_r in E. apply String.eqb_eq. exact E. }
      rewrite (load_ear_run fs dataset_dir subset Utils.new_dataset Hs).
      rewrite load_ear_loop_class_info. reflexivity.
    - unfold load_ear, assert_, lift. cbn [bind Monad_M].
      change (Utils.add_class "ear" 1 "ear" Utils.new_dataset)
        with (Ok tt, {| class_info := [ {| ci_source := ""; ci_id := 0; ci_name := "BG" |};
                                        {| ci_source := "ear"; ci_id := 1; ci_name := "ear" |} ];
                        image_info := [] |}).
      cbv beta iota. rewrite E. reflexivity. }
  split; [exact H|]. rewrite H. reflexivity.
Qed.
